(** * Number Discussion System: computation trees over a relational store

    A shallow embedding of the TypeScript sources

      - [src/models/operation-model.ts]   (OperationRepository, computeResult,
                                           OperationModel)
      - [src/models/discussion-model.ts]  (DiscussionRepository, DiscussionModel)
      - [src/controllers/discussions-controller.ts]
                                          (DiscussionController, OperationController)

    JavaScript numbers are IEEE-754 binary64 values and are modelled by
    Rocq's primitive floats; request bodies are JavaScript objects whose
    properties hold arbitrary JSON values; the Prisma client is modelled
    by two tables held in insertion order. *)

From Stdlib Require Import ZArith String Ascii List Bool Floats Lia.
From Stdlib Require Import Permutation Sorted.
Import ListNotations.

Set Warnings "-register-all,-inexact-float".
Local Open Scope string_scope.

(** ** Completion of a JavaScript computation

    A function body either returns a value or throws [new Error(message)]. *)

Inductive Completion (A : Type) : Type :=
| Normal (a : A)
| Throw (message : string).

Arguments Normal {A} a.
Arguments Throw {A} message.

Definition bind {A B : Type} (c : Completion A) (k : A -> Completion B)
  : Completion B :=
  match c with
  | Normal a => k a
  | Throw m => Throw m
  end.

Notation "'let*' x ':=' c 'in' k" := (bind c (fun x => k))
  (at level 10, x name, c at level 100, k at level 200).

(** ** JavaScript values and builtins used by the controllers *)

Module Js.

(** Values that can occur as a property of a parsed request body, plus
    [Undefined] for a property that is absent.  Strings are sequences of
    8-bit code units (Latin-1).  [Obj] stands for a plain object (one
    without an own [toString] property), whose string conversion is
    "[object Object]". *)
Inductive value : Type :=
| Undefined
| Null
| Bool (b : bool)
| Num (n : float)
| Str (s : string)
| Arr (items : list value)
| Obj.

(** A JavaScript object used as a record of named properties. *)
Definition object := list (string * value).

(** Property read [o.k] (also what destructuring [const { k } = o] does):
    an absent property reads as [undefined]. *)
Fixpoint get (o : object) (k : string) : value :=
  match o with
  | [] => Undefined
  | (k', v) :: o' => if String.eqb k' k then v else get o' k
  end.

(** ToBoolean.  The falsy values are [undefined], [null], [false], [0],
    [-0], [NaN] and the empty string. *)
Definition truthy (v : value) : bool :=
  match v with
  | Undefined | Null => false
  | Bool b => b
  | Num n => negb (PrimFloat.eqb n 0 || PrimFloat.is_nan n)
  | Str s => negb (String.eqb s "")
  | Arr _ | Obj => true
  end.

(** [v === undefined || v === null] *)
Definition nullish (v : value) : bool :=
  match v with
  | Undefined | Null => true
  | _ => false
  end.

(** [Array.prototype.includes] on an array of strings: SameValueZero
    finds only a string equal to one of the elements. *)
Definition includes (a : list string) (v : value) : bool :=
  match v with
  | Str s => existsb (String.eqb s) a
  | _ => false
  end.

(** [s !== v] for a string [s]: strict inequality holds unless [v] is
    the same string. *)
Definition string_strict_ne (s : string) (v : value) : bool :=
  match v with
  | Str s' => negb (String.eqb s s')
  | _ => true
  end.

(** The string held by a value that has already been found to be one. *)
Definition as_string (v : value) : string :=
  match v with
  | Str s => s
  | _ => ""
  end.

(** [v || null], for a value stored in a nullable string column.  A
    truthy value reaches the store only after a lookup by it has
    succeeded, so it is a string. *)
Definition or_null (v : value) : option string :=
  if truthy v then Some (as_string v) else None.

(** *** parseFloat *)

Definition code (c : ascii) : Z := Z.of_nat (nat_of_ascii c).

Definition is_digit (c : ascii) : bool :=
  ((48 <=? code c) && (code c <=? 57))%Z.

(** WhiteSpace and LineTerminator code units below 256: TAB, LF, VT, FF,
    CR, SP and NBSP. *)
Definition is_white (c : ascii) : bool :=
  (((9 <=? code c) && (code c <=? 13)) || (code c =? 32) || (code c =? 160))%Z.

Fixpoint trim_start (s : string) : string :=
  match s with
  | String c s' => if is_white c then trim_start s' else s
  | EmptyString => s
  end.

(** Reads a maximal run of decimal digits; [acc] is the value read so
    far, [n] the number of digits read so far. *)
Fixpoint read_digits (s : string) (acc n : Z) : Z * Z * string :=
  match s with
  | String c s' =>
      if is_digit c
      then read_digits s' (10 * acc + (code c - 48))%Z (n + 1)%Z
      else (acc, n, s)
  | EmptyString => (acc, n, s)
  end.

(** ExponentPart, when one is present at the front of [s]; 0 otherwise. *)
Definition read_exponent (s : string) : Z :=
  match s with
  | String c s' =>
      if ((code c =? 101) || (code c =? 69))%Z then
        let '(sg, s'') :=
          match s' with
          | String c' t =>
              if (code c' =? 43)%Z then (1%Z, t)
              else if (code c' =? 45)%Z then ((-1)%Z, t)
              else (1%Z, s')
          | EmptyString => (1%Z, s')
          end in
        let '(v, n, _) := read_digits s'' 0 0 in
        if (n =? 0)%Z then 0%Z else (sg * v)%Z
      else 0%Z
  | EmptyString => 0%Z
  end.

(** The longest prefix that is a StrUnsignedDecimalLiteral, as a
    mantissa [m] and a decimal exponent [e] standing for [m * 10^e]. *)
Inductive literal : Type :=
| LitInfinity
| LitDecimal (m e : Z).

Definition read_literal (s : string) : option literal :=
  if String.prefix "Infinity" s then Some LitInfinity
  else
    let '(i, ni, r1) := read_digits s 0 0 in
    match r1 with
    | String "." r2 =>
        let '(m, nf, r3) := read_digits r2 i 0 in
        if ((ni =? 0) && (nf =? 0))%Z then None
        else Some (LitDecimal m (read_exponent r3 - nf))
    | _ =>
        if (ni =? 0)%Z then None
        else Some (LitDecimal i (read_exponent r1))
    end.

(** The binary64 value nearest to [m * 10^e] (ties to even), for
    [0 <= m]; [neg] is the sign of the result. *)
Definition round_decimal (neg : bool) (m e : Z) : float :=
  let zero := if neg then neg_zero else PrimFloat.zero in
  let inf := if neg then neg_infinity else infinity in
  if (m <=? 0)%Z then zero
  else if (310 <=? e)%Z then inf
  else if (0 <=? e)%Z then
    SF2Prim (binary_round_aux prec emax neg (m * 10 ^ e) 0 loc_Exact)
  else if (Z.log2 m + 1 <? 3 * (- e) - 1100)%Z then zero
  else
    let d := (10 ^ (- e))%Z in
    let s := Z.max 0 (65 + Z.log2 d - Z.log2 m) in
    let '(q, r) := Z.div_eucl (m * 2 ^ s) d in
    let l := if (r =? 0)%Z then loc_Exact
             else loc_Inexact (Z.compare (2 * r) d) in
    SF2Prim (binary_round_aux prec emax neg q (- s) l).

(** [parseFloat] applied to a string. *)
Definition parseFloat_string (s : string) : float :=
  let t := trim_start s in
  let '(neg, u) :=
    match t with
    | String c t' =>
        if (code c =? 43)%Z then (false, t')
        else if (code c =? 45)%Z then (true, t')
        else (false, t)
    | EmptyString => (false, t)
    end in
  match read_literal u with
  | None => nan
  | Some LitInfinity => if neg then neg_infinity else infinity
  | Some (LitDecimal m e) => round_decimal neg m e
  end.

(** [parseFloat(v)] converts [v] to a string and parses that.  A number
    prints to a string that parses back to itself, except that [-0]
    prints as "0".  [undefined], [null], booleans and plain objects print as
    words that start no numeric literal.  An array prints its elements
    separated by commas, so only the first element can contribute. *)
Fixpoint parseFloat (v : value) : float :=
  match v with
  | Undefined | Null | Bool _ | Obj => nan
  | Num n => if PrimFloat.eqb n 0 then PrimFloat.zero else n
  | Str s => parseFloat_string s
  | Arr [] => nan
  | Arr (x :: _) => parseFloat x
  end.

End Js.

(** ** Result Computation Engine: [computeResult] *)

Definition computeResult (previousValue : float) (operation : string)
           (operand : float) : Completion float :=
  if String.eqb operation "ADD" then Normal (previousValue + operand)%float
  else if String.eqb operation "SUBTRACT" then Normal (previousValue - operand)%float
  else if String.eqb operation "MULTIPLY" then Normal (previousValue * operand)%float
  else if String.eqb operation "DIVIDE" then
    if PrimFloat.eqb operand 0
    then Throw "Division by zero is not allowed"
    else Normal (previousValue / operand)%float
  else Throw ("Invalid operation type: " ++ operation).

(** ** The Prisma client

    Modelled from the spec: the Prisma schema and the generated client are
    not among the sources.  The spec (sections 3 and 6) describes a
    relational store with an identity and a creation timestamp assigned at
    creation, a unique constraint on [Discussion.startingNumber] (the
    source relies on it: [findUnique({ where: { startingNumber } })]) and
    foreign keys from [Operation.discussionId] and [Operation.parentId].
    Each table is a list of rows in insertion order.  The [author]
    relation points into the user table of the authentication collaborator
    and is not modelled: an [authorId] is the verified identity handed
    over by the [authenticate] middleware. *)

Module Discussion.
Record t : Type := {
  id : string;
  startingNumber : float;
  authorId : string;
  createdAt : Z
}.
End Discussion.

Module Operation.
Record t : Type := {
  id : string;
  discussionId : string;
  parentId : option string;
  operationType : string;
  operand : float;
  result : float;
  authorId : string;
  createdAt : Z
}.
End Operation.

Module Prisma.

Record Db : Type := {
  discussion : list Discussion.t;
  operation : list Operation.t
}.

Definition empty : Db := {| discussion := []; operation := [] |}.

(** What the database supplies when a row is created: the default of the
    [id] column and the value of [now()] for [createdAt]. *)
Record Env : Type := {
  newId : string;
  now : Z
}.

(** Equality of the database on a double precision column: IEEE
    equality, with NaN equal to itself. *)
Definition same_number (x y : float) : bool :=
  PrimFloat.eqb x y || (PrimFloat.is_nan x && PrimFloat.is_nan y).

(** [orderBy] on one column.  The database leaves the relative order of
    rows with equal keys unspecified; here they stay in insertion order
    (a stable insertion sort). *)
Section OrderBy.
Context {A : Type}.
Variable le : A -> A -> bool.

Fixpoint insert (x : A) (l : list A) : list A :=
  match l with
  | [] => [x]
  | y :: l' => if le x y then x :: l else y :: insert x l'
  end.

Fixpoint orderBy (l : list A) : list A :=
  match l with
  | [] => []
  | x :: l' => insert x (orderBy l')
  end.
End OrderBy.

Definition operation_asc (a b : Operation.t) : bool :=
  (Operation.createdAt a <=? Operation.createdAt b)%Z.

Definition discussion_desc (a b : Discussion.t) : bool :=
  (Discussion.createdAt b <=? Discussion.createdAt a)%Z.

Definition invalid_invocation (call : string) : string :=
  "Invalid `prisma." ++ call ++ "()` invocation".

Definition unique_failed (field : string) : string :=
  "Unique constraint failed on the fields: (`" ++ field ++ "`)".

Definition foreign_key_failed (field : string) : string :=
  "Foreign key constraint failed on the field: `" ++ field ++ "`".

Definition discussion_by_id (db : Db) (id : string) : option Discussion.t :=
  find (fun d => String.eqb (Discussion.id d) id) (discussion db).

Definition operation_by_id (db : Db) (id : string) : option Operation.t :=
  find (fun o => String.eqb (Operation.id o) id) (operation db).

(** [prisma.discussion.findUnique({ where: { id } })]: the client
    validates its arguments and throws when [id] is not a string. *)
Definition discussion_findUnique (db : Db) (id : Js.value)
  : Completion (option Discussion.t) :=
  match id with
  | Js.Str s => Normal (discussion_by_id db s)
  | _ => Throw (invalid_invocation "discussion.findUnique")
  end.

(** [prisma.discussion.findUnique({ where: { startingNumber } })] *)
Definition discussion_findUnique_startingNumber (db : Db) (n : float)
  : option Discussion.t :=
  find (fun d => same_number (Discussion.startingNumber d) n) (discussion db).

(** [prisma.operation.findUnique({ where: { id } })] *)
Definition operation_findUnique (db : Db) (id : Js.value)
  : Completion (option Operation.t) :=
  match id with
  | Js.Str s => Normal (operation_by_id db s)
  | _ => Throw (invalid_invocation "operation.findUnique")
  end.

(** [prisma.discussion.create({ data })] *)
Definition discussion_create (env : Env) (startingNumber : float)
           (authorId : string) (db : Db) : Completion (Discussion.t * Db) :=
  match discussion_by_id db (newId env) with
  | Some _ => Throw (unique_failed "id")
  | None =>
      match discussion_findUnique_startingNumber db startingNumber with
      | Some _ => Throw (unique_failed "startingNumber")
      | None =>
          let d := {| Discussion.id := newId env;
                      Discussion.startingNumber := startingNumber;
                      Discussion.authorId := authorId;
                      Discussion.createdAt := now env |} in
          Normal (d, {| discussion := discussion db ++ [d];
                        operation := operation db |})
      end
  end.

Definition set_startingNumber (n : float) (d : Discussion.t) : Discussion.t :=
  {| Discussion.id := Discussion.id d;
     Discussion.startingNumber := n;
     Discussion.authorId := Discussion.authorId d;
     Discussion.createdAt := Discussion.createdAt d |}.

(** [prisma.discussion.update({ where: { id }, data: { startingNumber } })] *)
Definition discussion_update (id : Js.value) (startingNumber : float) (db : Db)
  : Completion (Discussion.t * Db) :=
  let* found := discussion_findUnique db id in
  match found with
  | None => Throw "Record to update not found."
  | Some d =>
      if existsb (fun d' => negb (String.eqb (Discussion.id d') (Discussion.id d))
                            && same_number (Discussion.startingNumber d') startingNumber)
                 (discussion db)
      then Throw (unique_failed "startingNumber")
      else
        let d1 := set_startingNumber startingNumber d in
        Normal (d1,
                {| discussion :=
                     map (fun d' => if String.eqb (Discussion.id d') (Discussion.id d)
                                    then set_startingNumber startingNumber d'
                                    else d')
                         (discussion db);
                   operation := operation db |})
  end.

(** [prisma.operation.create({ data })] *)
Definition operation_create (env : Env) (discussionId : string)
           (parentId : option string) (operationType : string)
           (operand result : float) (authorId : string) (db : Db)
  : Completion (Operation.t * Db) :=
  match operation_by_id db (newId env) with
  | Some _ => Throw (unique_failed "id")
  | None =>
      match discussion_by_id db discussionId with
      | None => Throw (foreign_key_failed "discussionId")
      | Some _ =>
          let parent_ok :=
            match parentId with
            | None => true
            | Some p => match operation_by_id db p with
                        | Some _ => true
                        | None => false
                        end
            end in
          if parent_ok then
            let o := {| Operation.id := newId env;
                        Operation.discussionId := discussionId;
                        Operation.parentId := parentId;
                        Operation.operationType := operationType;
                        Operation.operand := operand;
                        Operation.result := result;
                        Operation.authorId := authorId;
                        Operation.createdAt := now env |} in
            Normal (o, {| discussion := discussion db;
                          operation := operation db ++ [o] |})
          else Throw (foreign_key_failed "parentId")
      end
  end.

(** [prisma.operation.findMany({ where, orderBy: { createdAt: 'asc' } })] *)
Definition operation_findMany_asc (cond : Operation.t -> bool) (db : Db)
  : list Operation.t :=
  orderBy operation_asc (filter cond (operation db)).

Definition operation_desc (a b : Operation.t) : bool :=
  (Operation.createdAt b <=? Operation.createdAt a)%Z.

(** [_count: { select: { operations: true } }] *)
Definition count_operations (db : Db) (d : Discussion.t) : nat :=
  length (filter (fun o => String.eqb (Operation.discussionId o) (Discussion.id d))
                 (operation db)).

End Prisma.

(** ** Models ([src/models]) *)

Module DiscussionRepository.

Definition create (env : Prisma.Env) (startingNumber : float)
           (authorId : string) (db : Prisma.Db)
  : Completion (Discussion.t * Prisma.Db) :=
  Prisma.discussion_create env startingNumber authorId db.

(** The discussion with its operations, oldest first. *)
Definition with_operations (db : Prisma.Db) (d : Discussion.t)
  : Discussion.t * list Operation.t :=
  (d, Prisma.operation_findMany_asc
        (fun o => String.eqb (Operation.discussionId o) (Discussion.id d)) db).

Definition findById (db : Prisma.Db) (id : Js.value)
  : Completion (option (Discussion.t * list Operation.t)) :=
  let* found := Prisma.discussion_findUnique db id in
  Normal (option_map (with_operations db) found).

Definition findAll (db : Prisma.Db) : list (Discussion.t * list Operation.t) :=
  map (with_operations db)
      (Prisma.orderBy Prisma.discussion_desc (Prisma.discussion db)).

Definition update (id : Js.value) (startingNumber : float) (db : Prisma.Db)
  : Completion (Discussion.t * Prisma.Db) :=
  Prisma.discussion_update id startingNumber db.

End DiscussionRepository.

Module DiscussionModel.

Definition findByStartingNumber (db : Prisma.Db) (startingNumber : float)
  : option Discussion.t :=
  Prisma.discussion_findUnique_startingNumber db startingNumber.

Definition isStartingNumberTaken (db : Prisma.Db) (startingNumber : float) : bool :=
  match Prisma.discussion_findUnique_startingNumber db startingNumber with
  | Some _ => true
  | None => false
  end.

(** The author's discussions, newest first, each with the number of its
    operations. *)
Definition findByAuthor (db : Prisma.Db) (authorId : string)
  : list (Discussion.t * nat) :=
  map (fun d => (d, Prisma.count_operations db d))
      (Prisma.orderBy Prisma.discussion_desc
         (filter (fun d => String.eqb (Discussion.authorId d) authorId)
                 (Prisma.discussion db))).

(** [discussion?.authorId === userId] *)
Definition isAuthor (db : Prisma.Db) (discussionId userId : string) : bool :=
  match Prisma.discussion_by_id db discussionId with
  | Some discussion => String.eqb (Discussion.authorId discussion) userId
  | None => false
  end.

End DiscussionModel.

Module OperationRepository.

Definition create (env : Prisma.Env) (discussionId : string)
           (parentId : option string) (operationType : string)
           (operand result : float) (authorId : string) (db : Prisma.Db)
  : Completion (Operation.t * Prisma.Db) :=
  Prisma.operation_create env discussionId parentId operationType
                          operand result authorId db.

Definition findById (db : Prisma.Db) (id : Js.value)
  : Completion (option Operation.t) :=
  Prisma.operation_findUnique db id.

Definition findByDiscussion (db : Prisma.Db) (discussionId : string)
  : list Operation.t :=
  Prisma.operation_findMany_asc
    (fun o => String.eqb (Operation.discussionId o) discussionId) db.

End OperationRepository.

Module OperationModel.

Definition validOperationTypes : list string :=
  ["ADD"; "SUBTRACT"; "MULTIPLY"; "DIVIDE"].

Definition isValidOperationType (type : string) : bool :=
  existsb (String.eqb type) validOperationTypes.

Definition findByDiscussion (db : Prisma.Db) (discussionId : string)
  : list Operation.t :=
  Prisma.operation_findMany_asc
    (fun o => String.eqb (Operation.discussionId o) discussionId) db.

Definition is_child_of (operationId : string) (o : Operation.t) : bool :=
  match Operation.parentId o with
  | Some p => String.eqb p operationId
  | None => false
  end.

Definition getChildren (db : Prisma.Db) (operationId : string)
  : list Operation.t :=
  Prisma.operation_findMany_asc (is_child_of operationId) db.

Definition is_root_of (discussionId : string) (o : Operation.t) : bool :=
  String.eqb (Operation.discussionId o) discussionId
  && match Operation.parentId o with
     | None => true
     | Some _ => false
     end.

Definition getRootOperations (db : Prisma.Db) (discussionId : string)
  : list Operation.t :=
  Prisma.operation_findMany_asc (is_root_of discussionId) db.

(** [!currentOperation.parentId]: a [null] or empty parent reference. *)
Definition no_parent (o : Operation.t) : bool :=
  match Operation.parentId o with
  | None => true
  | Some p => String.eqb p ""
  end.

(** The [while (currentOperation)] loop of [getOperationChain].  Each
    evaluation of the loop condition takes one unit of [fuel]; [None]
    means the fuel ran out before the loop was left. *)
Fixpoint chain_loop (fuel : nat) (db : Prisma.Db)
         (currentOperation : option Operation.t) (chain : list Operation.t)
  : option (list Operation.t) :=
  match fuel with
  | O => None
  | S fuel' =>
      match currentOperation with
      | None => Some chain
      | Some op =>
          let chain' := op :: chain in
          if no_parent op then Some chain'
          else
            chain_loop fuel' db
              (Prisma.operation_by_id db
                 (match Operation.parentId op with
                  | Some p => p
                  | None => ""
                  end))
              chain'
      end
  end.

Definition getOperationChain (fuel : nat) (db : Prisma.Db)
           (operationId : string) : option (list Operation.t) :=
  chain_loop fuel db (Prisma.operation_by_id db operationId) [].

(** [if (parentId)] on a [string | null]: a named, non-empty parent. *)
Definition named (parentId : option string) : option string :=
  match parentId with
  | Some p => if String.eqb p "" then None else Some p
  | None => None
  end.

Definition getPreviousValue (db : Prisma.Db) (discussionId : string)
           (parentId : option string) : Completion float :=
  match named parentId with
  | Some p =>
      match Prisma.operation_by_id db p with
      | None => Throw "Parent operation not found"
      | Some parentOperation =>
          if negb (String.eqb (Operation.discussionId parentOperation) discussionId)
          then Throw "Parent operation does not belong to this discussion"
          else Normal (Operation.result parentOperation)
      end
  | None =>
      match Prisma.discussion_by_id db discussionId with
      | None => Throw "Discussion not found"
      | Some discussion => Normal (Discussion.startingNumber discussion)
      end
  end.

Definition countByDiscussion (db : Prisma.Db) (discussionId : string) : nat :=
  length (filter (fun o => String.eqb (Operation.discussionId o) discussionId)
                 (Prisma.operation db)).

(** The author's operations, newest first, each with its discussion. *)
Definition findByAuthor (db : Prisma.Db) (authorId : string)
  : list (Operation.t * option Discussion.t) :=
  map (fun o => (o, Prisma.discussion_by_id db (Operation.discussionId o)))
      (Prisma.orderBy Prisma.operation_desc
         (filter (fun o => String.eqb (Operation.authorId o) authorId)
                 (Prisma.operation db))).

(** [operation?.authorId === userId] *)
Definition isAuthor (db : Prisma.Db) (operationId userId : string) : bool :=
  match Prisma.operation_by_id db operationId with
  | Some operation => String.eqb (Operation.authorId operation) userId
  | None => false
  end.

End OperationModel.

(** ** Controllers ([src/controllers]) *)

(** The request as the handlers read it: route parameters, the parsed
    body, and the identity attached by the [authenticate] middleware. *)
Record AuthRequest : Type := {
  params : Js.object;
  body : Js.object;
  userId : string
}.

(** The payload handed to [res.json]. *)
Inductive Json : Type :=
| JError (error : string)
| JConflict (error : string) (existingId : string) (existingStartingNumber : float)
| JDiscussion (d : Discussion.t)
| JDiscussionFull (d : Discussion.t * list Operation.t)
| JDiscussions (ds : list (Discussion.t * list Operation.t))
| JOperation (o : Operation.t)
| JOperations (os : list Operation.t).

Record Response : Type := {
  status : Z;
  json : Json
}.

Definition respond (code : Z) (j : Json) : Response :=
  {| status := code; json := j |}.

(** [try { ... } catch (error) { return res.status(500).json(...) }]:
    nothing has been written when the body throws, since every handler
    performs at most one write and that write is its last store call. *)
Definition catch (db : Prisma.Db) (c : Completion (Response * Prisma.Db))
  : Response * Prisma.Db :=
  match c with
  | Normal r => r
  | Throw m => (respond 500 (JError m), db)
  end.

Module DiscussionController.

(** POST /api/discussions *)
Definition create (env : Prisma.Env) (req : AuthRequest) (db : Prisma.Db)
  : Response * Prisma.Db :=
  catch db
    (let startingNumber := Js.get (body req) "startingNumber" in
     if Js.nullish startingNumber then
       Normal (respond 400 (JError "startingNumber is required"), db)
     else
       let numberValue := Js.parseFloat startingNumber in
       match DiscussionModel.findByStartingNumber db numberValue with
       | Some existing =>
           Normal (respond 409
                     (JConflict "This starting number is already taken"
                                (Discussion.id existing)
                                (Discussion.startingNumber existing)),
                   db)
       | None =>
           let* created :=
             DiscussionRepository.create env numberValue (userId req) db in
           Normal (respond 201 (JDiscussion (fst created)), snd created)
       end).

(** GET /api/discussions *)
Definition getAll (req : AuthRequest) (db : Prisma.Db) : Response * Prisma.Db :=
  (respond 200 (JDiscussions (DiscussionRepository.findAll db)), db).

(** GET /api/discussions/:id *)
Definition getById (req : AuthRequest) (db : Prisma.Db) : Response * Prisma.Db :=
  catch db
    (let id := Js.get (params req) "id" in
     if negb (Js.truthy id) then
       Normal (respond 400 (JError "Discussion ID is required"), db)
     else
       let* discussion := DiscussionRepository.findById db id in
       match discussion with
       | None => Normal (respond 404 (JError "Discussion not found"), db)
       | Some d => Normal (respond 200 (JDiscussionFull d), db)
       end).

(** PATCH /api/discussions/:id *)
Definition update (req : AuthRequest) (db : Prisma.Db) : Response * Prisma.Db :=
  catch db
    (let id := Js.get (params req) "id" in
     let startingNumber := Js.get (body req) "startingNumber" in
     if negb (Js.truthy id) then
       Normal (respond 400 (JError "Discussion ID is required"), db)
     else if Js.nullish startingNumber then
       Normal (respond 400 (JError "startingNumber is required"), db)
     else
       let* discussion := DiscussionRepository.findById db id in
       match discussion with
       | None => Normal (respond 404 (JError "Discussion not found"), db)
       | Some (discussion, _) =>
           if negb (String.eqb (Discussion.authorId discussion) (userId req)) then
             Normal (respond 403 (JError "Not authorized to update this discussion"), db)
           else
             let numberValue := Js.parseFloat startingNumber in
             let taken :=
               if negb (PrimFloat.eqb numberValue (Discussion.startingNumber discussion))
               then DiscussionModel.findByStartingNumber db numberValue
               else None in
             match taken with
             | Some existing =>
                 Normal (respond 409
                           (JConflict
                              "This starting number is already taken by another discussion"
                              (Discussion.id existing)
                              (Discussion.startingNumber existing)),
                         db)
             | None =>
                 let* updated := DiscussionRepository.update id numberValue db in
                 Normal (respond 200 (JDiscussion (fst updated)), snd updated)
             end
       end).

End DiscussionController.

Module OperationController.

Definition validOperations : list string :=
  ["ADD"; "SUBTRACT"; "MULTIPLY"; "DIVIDE"].

(** The [if (parentId) ... else ...] block: either an early response or
    the previous value. *)
Definition previous (db : Prisma.Db) (discussion : Discussion.t)
           (discussionId parentId : Js.value) : Completion (Response + float) :=
  if Js.truthy parentId then
    let* parentOperation := OperationRepository.findById db parentId in
    match parentOperation with
    | None => Normal (inl (respond 404 (JError "Parent operation not found")))
    | Some parentOperation =>
        if Js.string_strict_ne (Operation.discussionId parentOperation) discussionId
        then Normal (inl (respond 400
                            (JError "Parent operation does not belong to this discussion")))
        else Normal (inr (Operation.result parentOperation))
    end
  else Normal (inr (Discussion.startingNumber discussion)).

(** POST /api/operations *)
Definition create (env : Prisma.Env) (req : AuthRequest) (db : Prisma.Db)
  : Response * Prisma.Db :=
  catch db
    (let discussionId := Js.get (body req) "discussionId" in
     let parentId := Js.get (body req) "parentId" in
     let operationType := Js.get (body req) "operationType" in
     let operand := Js.get (body req) "operand" in
     if negb (Js.truthy discussionId) || negb (Js.truthy operationType)
        || Js.nullish operand then
       Normal (respond 400
                 (JError "discussionId, operationType, and operand are required"), db)
     else if negb (Js.includes validOperations operationType) then
       Normal (respond 400
                 (JError "operationType must be ADD, SUBTRACT, MULTIPLY, or DIVIDE"), db)
     else
       let* discussion := DiscussionRepository.findById db discussionId in
       match discussion with
       | None => Normal (respond 404 (JError "Discussion not found"), db)
       | Some (discussion, _) =>
           let* prev := previous db discussion discussionId parentId in
           match prev with
           | inl early => Normal (early, db)
           | inr previousValue =>
               let* result :=
                 computeResult previousValue (Js.as_string operationType)
                               (Js.parseFloat operand) in
               let* created :=
                 OperationRepository.create env (Js.as_string discussionId)
                   (Js.or_null parentId) (Js.as_string operationType)
                   (Js.parseFloat operand) result (userId req) db in
               Normal (respond 201 (JOperation (fst created)), snd created)
           end
       end).

(** GET /api/operations/discussion/:discussionId *)
Definition getByDiscussion (req : AuthRequest) (db : Prisma.Db)
  : Response * Prisma.Db :=
  catch db
    (let discussionId := Js.get (params req) "discussionId" in
     if negb (Js.truthy discussionId) then
       Normal (respond 400 (JError "Discussion ID is required"), db)
     else
       match discussionId with
       | Js.Str s =>
           Normal (respond 200 (JOperations (OperationRepository.findByDiscussion db s)), db)
       | _ => Throw (Prisma.invalid_invocation "operation.findMany")
       end).

(** GET /api/operations/:id *)
Definition getById (req : AuthRequest) (db : Prisma.Db) : Response * Prisma.Db :=
  catch db
    (let id := Js.get (params req) "id" in
     if negb (Js.truthy id) then
       Normal (respond 400 (JError "Operation ID is required"), db)
     else
       let* operation := OperationRepository.findById db id in
       match operation with
       | None => Normal (respond 404 (JError "Operation not found"), db)
       | Some o => Normal (respond 200 (JOperation o), db)
       end).

End OperationController.

(** ** Middleware ([src/middleware/auth.ts]) and routes *)

Module Auth.

(** The payload of a verified token, with the fields the source's cast
    declares ([as { id: string; email: string; username: string; role:
    string }]). *)
Record Decoded : Type := {
  id : string;
  email : string;
  username : string;
  role : string
}.

(** The Express request as the middleware sees it: the [authorization]
    header, the route parameters, the parsed body, and the four optional
    fields that [authenticate] fills in. *)
Record Request : Type := {
  authorization : option string;
  req_params : Js.object;
  req_body : Js.object;
  req_userId : option string;
  req_userEmail : option string;
  req_username : option string;
  req_userRole : option string
}.

(** A middleware either answers the request or calls [next()]. *)
Inductive Outcome : Type :=
| Responded (r : Response)
| Next (req : Request).

Section Middleware.

(** [jwt.verify(token, secret)] of the jsonwebtoken package: the decoded
    payload, or an exception for a token that is malformed, expired or
    signed with another secret. *)
Variable verify : string -> string -> Completion Decoded.

(** [process.env.JWT_SECRET || ''] *)
Variable JWT_SECRET : string.

Definition authenticate (req : Request) : Outcome :=
  match authorization req with
  | None => Responded (respond 401 (JError "No token provided"))
  | Some authHeader =>
      if String.eqb authHeader "" || negb (String.prefix "Bearer " authHeader) then
        Responded (respond 401 (JError "No token provided"))
      else
        let token := String.substring 7 (String.length authHeader - 7) authHeader in
        match verify token JWT_SECRET with
        | Throw _ => Responded (respond 401 (JError "Invalid or expired token"))
        | Normal decoded =>
            Next {| authorization := authorization req;
                    req_params := req_params req;
                    req_body := req_body req;
                    req_userId := Some (id decoded);
                    req_userEmail := Some (email decoded);
                    req_username := Some (username decoded);
                    req_userRole := Some (role decoded) |}
        end
  end.

Definition requireRegisteredUser (req : Request) : Outcome :=
  match req_userRole req with
  | None =>
      Responded (respond 403
        (JError "Access denied. Only registered users can perform this action."))
  | Some userRole =>
      if String.eqb userRole "" || String.eqb userRole "Guest" then
        Responded (respond 403
          (JError "Access denied. Only registered users can perform this action."))
      else Next req
  end.

End Middleware.

End Auth.

Module Router.

(** The routes of the two routers. *)
Inductive Route : Type :=
| POST_discussions
| GET_discussions
| GET_discussion
| PATCH_discussion
| POST_operations
| GET_operations_of_discussion
| GET_operation.

(** The request as a controller reads it.  [req.userId!] is read only by
    the handlers that are mounted behind [authenticate]. *)
Definition to_controller (req : Auth.Request) : AuthRequest :=
  {| params := Auth.req_params req;
     body := Auth.req_body req;
     userId := match Auth.req_userId req with
               | Some u => u
               | None => ""
               end |}.

(** [router.METHOD(path, m1, ..., mn, handler)]: the middlewares run in
    order; the handler runs when each of them has called [next()]. *)
Fixpoint through (middlewares : list (Auth.Request -> Auth.Outcome))
         (handler : AuthRequest -> Prisma.Db -> Response * Prisma.Db)
         (req : Auth.Request) (db : Prisma.Db) : Response * Prisma.Db :=
  match middlewares with
  | [] => handler (to_controller req) db
  | m :: rest =>
      match m req with
      | Auth.Responded r => (r, db)
      | Auth.Next req' => through rest handler req' db
      end
  end.

Section Routes.

Variable verify : string -> string -> Completion Auth.Decoded.
Variable JWT_SECRET : string.

Definition registered : list (Auth.Request -> Auth.Outcome) :=
  [Auth.authenticate verify JWT_SECRET; Auth.requireRegisteredUser].

Definition handle (env : Prisma.Env) (route : Route) (req : Auth.Request)
           (db : Prisma.Db) : Response * Prisma.Db :=
  match route with
  | POST_discussions => through registered (DiscussionController.create env) req db
  | GET_discussions => through [] DiscussionController.getAll req db
  | GET_discussion => through [] DiscussionController.getById req db
  | PATCH_discussion => through registered DiscussionController.update req db
  | POST_operations => through registered (OperationController.create env) req db
  | GET_operations_of_discussion => through [] OperationController.getByDiscussion req db
  | GET_operation => through [] OperationController.getById req db
  end.

End Routes.

(** The handler mounted on a route. *)
Definition controller (env : Prisma.Env) (route : Route)
  : AuthRequest -> Prisma.Db -> Response * Prisma.Db :=
  match route with
  | POST_discussions => DiscussionController.create env
  | GET_discussions => DiscussionController.getAll
  | GET_discussion => DiscussionController.getById
  | PATCH_discussion => DiscussionController.update
  | POST_operations => OperationController.create env
  | GET_operations_of_discussion => OperationController.getByDiscussion
  | GET_operation => OperationController.getById
  end.

(** The routes mounted behind [authenticate, requireRegisteredUser]. *)
Definition writes (route : Route) : bool :=
  match route with
  | POST_discussions | PATCH_discussion | POST_operations => true
  | _ => false
  end.

End Router.

(** ** Stores reachable through the exposed mutating routes

    The routes that write are POST /api/discussions, PATCH
    /api/discussions/:id and POST /api/operations. *)

Inductive Action : Type :=
| CreateDiscussion (env : Prisma.Env) (req : AuthRequest)
| UpdateDiscussion (req : AuthRequest)
| CreateOperation (env : Prisma.Env) (req : AuthRequest).

Definition step (db : Prisma.Db) (a : Action) : Prisma.Db :=
  match a with
  | CreateDiscussion env req => snd (DiscussionController.create env req db)
  | UpdateDiscussion req => snd (DiscussionController.update req db)
  | CreateOperation env req => snd (OperationController.create env req db)
  end.

Definition run (acts : list Action) : Prisma.Db :=
  fold_left step acts Prisma.empty.

Inductive ReachableBy (allowed : Action -> Prop) : Prisma.Db -> Prop :=
| reach_empty : ReachableBy allowed Prisma.empty
| reach_step db a :
    ReachableBy allowed db -> allowed a -> ReachableBy allowed (step db a).

Definition Reachable : Prisma.Db -> Prop := ReachableBy (fun _ => True).

(** The action is a PATCH of the discussion [did]. *)
Definition updates (did : string) (a : Action) : Prop :=
  match a with
  | UpdateDiscussion req => Js.get (params req) "id" = Js.Str did
  | _ => False
  end.

(** ** Integrity of a store *)

(** The stored parent reference of [o] is [null], or names an operation of
    the same discussion among [before], the rows inserted earlier. *)
Definition parent_before (before : list Operation.t) (o : Operation.t) : Prop :=
  match Operation.parentId o with
  | None => True
  | Some p =>
      p <> "" /\
      exists po, In po before /\ Operation.id po = p /\
                 Operation.discussionId po = Operation.discussionId o
  end.

(** The stored result of [o] is what [computeResult] yields from the
    stored result of its parent. *)
Definition derived_from_parent (ops : list Operation.t) (o : Operation.t) : Prop :=
  match Operation.parentId o with
  | None => True
  | Some p =>
      forall po, In po ops -> Operation.id po = p ->
        computeResult (Operation.result po) (Operation.operationType o)
                      (Operation.operand o)
        = Normal (Operation.result o)
  end.

Record WellFormed (db : Prisma.Db) : Prop := {
  wf_discussion_ids : NoDup (map Discussion.id (Prisma.discussion db));
  wf_operation_ids : NoDup (map Operation.id (Prisma.operation db));
  wf_unique_numbers :
    forall d d', In d (Prisma.discussion db) -> In d' (Prisma.discussion db) ->
      Prisma.same_number (Discussion.startingNumber d) (Discussion.startingNumber d') = true ->
      d = d';
  wf_discussion_exists :
    forall o, In o (Prisma.operation db) ->
      exists d, In d (Prisma.discussion db) /\ Discussion.id d = Operation.discussionId o;
  wf_parent_before :
    forall l1 o l2, Prisma.operation db = (l1 ++ o :: l2)%list -> parent_before l1 o;
  wf_derived :
    forall o, In o (Prisma.operation db) -> derived_from_parent (Prisma.operation db) o;
  wf_operation_types :
    forall o, In o (Prisma.operation db) ->
      In (Operation.operationType o) OperationController.validOperations
}.

(** The stored result of every root operation of the discussion [did] is
    what [computeResult] yields from the discussion's current
    [startingNumber]. *)
Definition roots_agree (did : string) (db : Prisma.Db) : Prop :=
  forall d o, Prisma.discussion_by_id db did = Some d ->
    In o (Prisma.operation db) -> Operation.discussionId o = did ->
    Operation.parentId o = None ->
    computeResult (Discussion.startingNumber d) (Operation.operationType o)
                  (Operation.operand o)
    = Normal (Operation.result o).

(** What [OperationController.create] has established about a row [o]
    when it inserts it into [db]. *)
Definition created_in (db : Prisma.Db) (o : Operation.t) : Prop :=
  Prisma.operation_by_id db (Operation.id o) = None /\
  In (Operation.operationType o) OperationController.validOperations /\
  exists d,
    Prisma.discussion_by_id db (Operation.discussionId o) = Some d /\
    match Operation.parentId o with
    | None =>
        computeResult (Discussion.startingNumber d) (Operation.operationType o)
                      (Operation.operand o)
        = Normal (Operation.result o)
    | Some p =>
        p <> "" /\
        exists po,
          Prisma.operation_by_id db p = Some po /\
          Operation.discussionId po = Operation.discussionId o /\
          computeResult (Operation.result po) (Operation.operationType o)
                        (Operation.operand o)
          = Normal (Operation.result o)
    end.

(** ** Parent paths and replay *)

(** [path db l o]: [l] is the sequence root -> o1 -> ... -> o of stored
    operations, each the child of the one before it, the first with no
    parent. *)
Inductive path (db : Prisma.Db) : list Operation.t -> Operation.t -> Prop :=
| path_root o :
    In o (Prisma.operation db) -> Operation.parentId o = None ->
    path db [o] o
| path_child l p o :
    path db l p -> In o (Prisma.operation db) ->
    Operation.parentId o = Some (Operation.id p) ->
    path db (l ++ [o])%list o.

(** Applies [computeResult] along a chain, starting from [v]; yields the
    value obtained at each node. *)
Fixpoint replay (v : float) (chain : list Operation.t) : Completion (list float) :=
  match chain with
  | [] => Normal []
  | o :: rest =>
      let* r := computeResult v (Operation.operationType o) (Operation.operand o) in
      let* rs := replay r rest in
      Normal (r :: rs)
  end.

(** ** Orderings of listings *)

Definition oldest_first (a b : Operation.t) : Prop :=
  (Operation.createdAt a <= Operation.createdAt b)%Z.

Definition newest_first (a b : Discussion.t) : Prop :=
  (Discussion.createdAt b <= Discussion.createdAt a)%Z.

Definition newest_operation_first (a b : Operation.t) : Prop :=
  (Operation.createdAt b <= Operation.createdAt a)%Z.

(** Ascending creation time with ties broken by identity. *)
Definition oldest_first_then_id (a b : Operation.t) : Prop :=
  (Operation.createdAt a < Operation.createdAt b)%Z
  \/ (Operation.createdAt a = Operation.createdAt b
      /\ String.leb (Operation.id a) (Operation.id b) = true).

(** ** The spec's scenarios, run on the model *)

Definition request (uid : string) (id : Js.value) (b : Js.object) : AuthRequest :=
  {| params := [("id", id)]; body := b; userId := uid |}.

Definition env1 : Prisma.Env := {| Prisma.newId := "d1"; Prisma.now := 1000 |}.
Definition env2 : Prisma.Env := {| Prisma.newId := "o1"; Prisma.now := 1001 |}.
Definition env3 : Prisma.Env := {| Prisma.newId := "o2"; Prisma.now := 1002 |}.

Definition create_root : AuthRequest :=
  request "alice" Js.Undefined [("startingNumber", Js.Num 42)].

Definition add_ten : AuthRequest :=
  request "bob" Js.Undefined
    [("discussionId", Js.Str "d1"); ("operationType", Js.Str "ADD");
     ("operand", Js.Num 10)].

Definition times_two : AuthRequest :=
  request "carol" Js.Undefined
    [("discussionId", Js.Str "d1"); ("parentId", Js.Str "o1");
     ("operationType", Js.Str "MULTIPLY"); ("operand", Js.Str "2")].

(** Discussion 42, then ADD 10 on the root, then MULTIPLY 2 on that. *)
Definition scenario : list Action :=
  [CreateDiscussion env1 create_root; CreateOperation env2 add_ten;
   CreateOperation env3 times_two].

(** Discussion 42, ADD 10 on the root, then the author changes the
    starting number to 5. *)
Definition scenario_updated : list Action :=
  [CreateDiscussion env1 create_root; CreateOperation env2 add_ten;
   UpdateDiscussion (request "alice" (Js.Str "d1") [("startingNumber", Js.Num 5)])].

Definition o1 : Operation.t :=
  {| Operation.id := "o1"; Operation.discussionId := "d1";
     Operation.parentId := None; Operation.operationType := "ADD";
     Operation.operand := 10; Operation.result := 52;
     Operation.authorId := "bob"; Operation.createdAt := 1001 |}.

Definition o2 : Operation.t :=
  {| Operation.id := "o2"; Operation.discussionId := "d1";
     Operation.parentId := Some "o1"; Operation.operationType := "MULTIPLY";
     Operation.operand := 2; Operation.result := 104;
     Operation.authorId := "carol"; Operation.createdAt := 1002 |}.

(** Two operations created within the same millisecond; the database
    hands out the identities "b" and then "a". *)
Definition scenario_tied : list Action :=
  [CreateDiscussion env1 create_root;
   CreateOperation {| Prisma.newId := "b"; Prisma.now := 2000 |} add_ten;
   CreateOperation {| Prisma.newId := "a"; Prisma.now := 2000 |} add_ten].

Definition tied (i : string) : Operation.t :=
  {| Operation.id := i; Operation.discussionId := "d1";
     Operation.parentId := None; Operation.operationType := "ADD";
     Operation.operand := 10; Operation.result := 52;
     Operation.authorId := "bob"; Operation.createdAt := 2000 |}.

(** A discussion 42 by alice and a discussion 7 by bob. *)
Definition two_discussions : list Action :=
  [CreateDiscussion env1 create_root;
   CreateDiscussion {| Prisma.newId := "d2"; Prisma.now := 1500 |}
     (request "bob" Js.Undefined [("startingNumber", Js.Num 7)])].

Definition d1 : Discussion.t :=
  {| Discussion.id := "d1"; Discussion.startingNumber := 42;
     Discussion.authorId := "alice"; Discussion.createdAt := 1000 |}.

Definition d2 : Discussion.t :=
  {| Discussion.id := "d2"; Discussion.startingNumber := 7;
     Discussion.authorId := "bob"; Discussion.createdAt := 1500 |}.

(** Requests whose numeric fields hold text that is not a number. *)
Definition add_ten_px : AuthRequest :=
  request "bob" Js.Undefined
    [("discussionId", Js.Str "d1"); ("operationType", Js.Str "ADD");
     ("operand", Js.Str "10px")].

Definition create_root_text : AuthRequest :=
  request "alice" Js.Undefined [("startingNumber", Js.Str "42abc")].

Definition divide_by_zero (parent : Js.value) : AuthRequest :=
  request "bob" Js.Undefined
    [("discussionId", Js.Str "d1"); ("parentId", parent);
     ("operationType", Js.Str "DIVIDE"); ("operand", Js.Num 0)].

Definition one_discussion : list Action :=
  [CreateDiscussion env1 create_root].

(** Discussions 42 and 7, and ADD 10 on the root of the first. *)
Definition two_trees : list Action :=
  two_discussions ++ [CreateOperation env2 add_ten].

Definition operation_request (did : string) (parent : Js.value) (op : string)
           (operand : Js.value) : AuthRequest :=
  request "carol" Js.Undefined
    [("discussionId", Js.Str did); ("parentId", parent);
     ("operationType", Js.Str op); ("operand", operand)].

Definition patch (uid id : string) (startingNumber : Js.value) : AuthRequest :=
  request uid (Js.Str id) [("startingNumber", startingNumber)].

(** A [string | null] argument as a JavaScript value. *)
Definition js_nullable (p : option string) : Js.value :=
  match p with
  | Some s => Js.Str s
  | None => Js.Null
  end.

(** [l1] is obtained from [l2] by leaving out some elements. *)
Inductive subsequence {A : Type} : list A -> list A -> Prop :=
| subsequence_nil : subsequence [] []
| subsequence_skip x l1 l2 : subsequence l1 l2 -> subsequence l1 (x :: l2)
| subsequence_take x l1 l2 : subsequence l1 l2 -> subsequence (x :: l1) (x :: l2).

(** A token verifier for the examples: under the secret "s3cret" the
    token "alice" belongs to a registered user and the token "guest" to a
    guest; every other token is rejected. *)
Definition verify_example (token secret : string) : Completion Auth.Decoded :=
  if String.eqb secret "s3cret" then
    if String.eqb token "alice" then
      Normal {| Auth.id := "alice"; Auth.email := "alice@example.org";
                Auth.username := "alice"; Auth.role := "User" |}
    else if String.eqb token "guest" then
      Normal {| Auth.id := "guest"; Auth.email := "guest@example.org";
                Auth.username := "guest"; Auth.role := "Guest" |}
    else Throw "jwt malformed"
  else Throw "invalid signature".

Definition http (header : option string) (id : Js.value) (b : Js.object)
  : Auth.Request :=
  {| Auth.authorization := header;
     Auth.req_params := [("id", id)];
     Auth.req_body := b;
     Auth.req_userId := None;
     Auth.req_userEmail := None;
     Auth.req_username := None;
     Auth.req_userRole := None |}.



Example scenario_store :
  Prisma.operation (run scenario) = [o1; o2].
Proof. vm_compute. reflexivity. Qed.

Example scenario_chain :
  OperationModel.getOperationChain 3 (run scenario) "o2" = Some [o1; o2].
Proof. vm_compute. reflexivity. Qed.

Example scenario_replay :
  replay 42 [o1; o2] = Normal [52%float; 104%float].
Proof. vm_compute. reflexivity. Qed.

(** ** Facts about number comparison *)

Section NumberEquality.

Lemma SFeqb_finite_inv s1 m1 e1 s2 m2 e2 :
  SFeqb (S754_finite s1 m1 e1) (S754_finite s2 m2 e2) = true ->
  s1 = s2 /\ m1 = m2 /\ e1 = e2.
Proof.
  unfold SFeqb, SFcompare.
  destruct s1, s2; try discriminate;
    destruct (Z.compare e1 e2) eqn:He; try discriminate;
    apply Z.compare_eq in He; subst e2;
    change (Pos.compare_cont Eq m1 m2) with (Pos.compare m1 m2);
    destruct (Pos.compare m1 m2) eqn:Hm; try discriminate;
    apply Pos.compare_eq in Hm; subst m2; auto.
Qed.

Lemma SFeqb_finite_refl s m e :
  SFeqb (S754_finite s m e) (S754_finite s m e) = true.
Proof.
  unfold SFeqb, SFcompare.
  change (Pos.compare_cont Eq m m) with (Pos.compare m m).
  rewrite Z.compare_refl, Pos.compare_refl. now destruct s.
Qed.

Lemma SFeqb_sym f1 f2 : SFeqb f1 f2 = SFeqb f2 f1.
Proof.
  destruct (SFeqb f1 f2) eqn:H12; destruct (SFeqb f2 f1) eqn:H21; trivial.
  - destruct f1 as [| [|] | | s1 m1 e1], f2 as [| [|] | | s2 m2 e2];
      try discriminate; try (destruct s1; discriminate);
      try (destruct s2; discriminate).
    apply SFeqb_finite_inv in H12 as (-> & -> & ->).
    now rewrite SFeqb_finite_refl in H21.
  - destruct f1 as [| [|] | | s1 m1 e1], f2 as [| [|] | | s2 m2 e2];
      try discriminate; try (destruct s1; discriminate);
      try (destruct s2; discriminate).
    apply SFeqb_finite_inv in H21 as (-> & -> & ->).
    now rewrite SFeqb_finite_refl in H12.
Qed.

Lemma SFeqb_trans f1 f2 f3 :
  SFeqb f1 f2 = true -> SFeqb f2 f3 = true -> SFeqb f1 f3 = true.
Proof.
  intros H12 H23.
  destruct f1 as [| [|] | | s1 m1 e1], f2 as [| [|] | | s2 m2 e2];
    try discriminate; try (destruct s1; discriminate);
    try (destruct s2; discriminate);
    destruct f3 as [| [|] | | s3 m3 e3];
    try discriminate; try (destruct s2; discriminate);
    try (destruct s3; discriminate); trivial.
  apply SFeqb_finite_inv in H12 as (-> & -> & ->). exact H23.
Qed.

Lemma eqb_sym (x y : float) : PrimFloat.eqb x y = PrimFloat.eqb y x.
Proof. rewrite !FloatAxioms.eqb_spec. apply SFeqb_sym. Qed.

Lemma eqb_trans (x y z : float) :
  PrimFloat.eqb x y = true -> PrimFloat.eqb y z = true ->
  PrimFloat.eqb x z = true.
Proof. rewrite !FloatAxioms.eqb_spec. apply SFeqb_trans. Qed.

Lemma eqb_not_nan_l (x y : float) :
  PrimFloat.eqb x y = true -> PrimFloat.is_nan x = false.
Proof.
  intros H. unfold PrimFloat.is_nan.
  rewrite (eqb_trans x y x H); [reflexivity |].
  now rewrite eqb_sym.
Qed.

Lemma same_number_sym (x y : float) :
  Prisma.same_number x y = Prisma.same_number y x.
Proof.
  unfold Prisma.same_number.
  rewrite (eqb_sym x y), (andb_comm (PrimFloat.is_nan x)). reflexivity.
Qed.

Lemma same_number_refl (x : float) : Prisma.same_number x x = true.
Proof.
  unfold Prisma.same_number, PrimFloat.is_nan.
  destruct (PrimFloat.eqb x x); reflexivity.
Qed.

(** A value strictly equal to [y] is equal to whatever the database
    holds equal to [y]. *)
Lemma same_number_eqb (z x y : float) :
  Prisma.same_number z x = true -> PrimFloat.eqb x y = true ->
  Prisma.same_number z y = true.
Proof.
  unfold Prisma.same_number. intros Hzx Hxy.
  rewrite (eqb_not_nan_l x y Hxy), andb_false_r, orb_false_r in Hzx.
  now rewrite (eqb_trans z x y Hzx Hxy).
Qed.

End NumberEquality.

(** ** The Result Computation Engine *)

(** C1.  [computeResult] adds, subtracts and multiplies; it divides when
    the operand is not zero and throws "Division by zero is not allowed"
    when it is; for every other operation name it throws "Invalid
    operation type"; equal inputs give equal outputs. *)
Theorem computeResult_spec :
  (forall v w, computeResult v "ADD" w = Normal (v + w)%float) /\
  (forall v w, computeResult v "SUBTRACT" w = Normal (v - w)%float) /\
  (forall v w, computeResult v "MULTIPLY" w = Normal (v * w)%float) /\
  (forall v w, PrimFloat.eqb w 0 = false ->
               computeResult v "DIVIDE" w = Normal (v / w)%float) /\
  (forall v w, PrimFloat.eqb w 0 = true ->
               computeResult v "DIVIDE" w = Throw "Division by zero is not allowed") /\
  (forall v k w, ~ In k ["ADD"; "SUBTRACT"; "MULTIPLY"; "DIVIDE"] ->
                 computeResult v k w = Throw ("Invalid operation type: " ++ k)) /\
  (forall v k w v' k' w', v = v' -> k = k' -> w = w' ->
                          computeResult v k w = computeResult v' k' w').
Proof.
  split; [| split; [| split; [| split; [| split; [| split]]]]]; intros.
  - reflexivity.
  - reflexivity.
  - reflexivity.
  - unfold computeResult. rewrite H. reflexivity.
  - unfold computeResult. rewrite H. reflexivity.
  - unfold computeResult.
    destruct (String.eqb k "ADD") eqn:E1.
    { apply String.eqb_eq in E1. exfalso. apply H. simpl. auto. }
    destruct (String.eqb k "SUBTRACT") eqn:E2.
    { apply String.eqb_eq in E2. exfalso. apply H. simpl. auto. }
    destruct (String.eqb k "MULTIPLY") eqn:E3.
    { apply String.eqb_eq in E3. exfalso. apply H. simpl. auto. }
    destruct (String.eqb k "DIVIDE") eqn:E4.
    { apply String.eqb_eq in E4. exfalso. apply H. simpl. auto. }
    reflexivity.
  - now subst.
Qed.

Lemma computeResult_spec_witness :
  computeResult 42 "ADD" 10 = Normal 52%float /\
  computeResult 42 "MULTIPLY" 2 = Normal 84%float /\
  computeResult 42 "DIVIDE" 7 = Normal 6%float /\
  computeResult 5 "DIVIDE" 0 = Throw "Division by zero is not allowed" /\
  computeResult 5 "DIVIDE" (-0) = Throw "Division by zero is not allowed" /\
  computeResult 2 "POWER" 3 = Throw "Invalid operation type: POWER".
Proof.
  destruct computeResult_spec as (Hadd & _ & Hmul & Hdiv & Hzero & Hbad & _).
  split; [| split; [| split; [| split; [| split]]]].
  - exact (Hadd 42%float 10%float).
  - exact (Hmul 42%float 2%float).
  - exact (Hdiv 42%float 7%float eq_refl).
  - exact (Hzero 5%float 0%float eq_refl).
  - exact (Hzero 5%float (-0)%float eq_refl).
  - apply (Hbad 2%float "POWER" 3%float).
    simpl. intros [H | [H | [H | [H | []]]]]; discriminate H.
Defined.

(** ** Lookups *)

Lemma discussion_by_id_some db i d :
  Prisma.discussion_by_id db i = Some d ->
  In d (Prisma.discussion db) /\ Discussion.id d = i.
Proof.
  unfold Prisma.discussion_by_id. intros H.
  apply find_some in H as [Hin He]. now apply String.eqb_eq in He.
Qed.

Lemma operation_by_id_some db i o :
  Prisma.operation_by_id db i = Some o ->
  In o (Prisma.operation db) /\ Operation.id o = i.
Proof.
  unfold Prisma.operation_by_id. intros H.
  apply find_some in H as [Hin He]. now apply String.eqb_eq in He.
Qed.

Lemma find_by_key {A : Type} (key : A -> string) (l : list A) (x : A) :
  NoDup (map key l) -> In x l ->
  find (fun y => String.eqb (key y) (key x)) l = Some x.
Proof.
  induction l as [| y l IH]; simpl; intros Hnd Hin; [contradiction |].
  inversion Hnd as [| ? ? Hnotin Hnd']; subst.
  destruct Hin as [-> | Hin].
  - now rewrite String.eqb_refl.
  - destruct (String.eqb (key y) (key x)) eqn:E.
    + apply String.eqb_eq in E. exfalso. apply Hnotin. rewrite E.
      now apply in_map.
    + now apply IH.
Qed.

Lemma operation_by_id_of db o :
  NoDup (map Operation.id (Prisma.operation db)) ->
  In o (Prisma.operation db) ->
  Prisma.operation_by_id db (Operation.id o) = Some o.
Proof. intros. now apply (find_by_key Operation.id). Qed.

Lemma discussion_by_id_of db d :
  NoDup (map Discussion.id (Prisma.discussion db)) ->
  In d (Prisma.discussion db) ->
  Prisma.discussion_by_id db (Discussion.id d) = Some d.
Proof. intros. now apply (find_by_key Discussion.id). Qed.

Lemma by_id_none_not_in {A : Type} (key : A -> string) (l : list A) (i : string) :
  find (fun y => String.eqb (key y) i) l = None -> ~ In i (map key l).
Proof.
  intros H Hin. apply in_map_iff in Hin as (x & Hx & Hin).
  apply (find_none _ _ H) in Hin. rewrite Hx, String.eqb_refl in Hin.
  discriminate.
Qed.

Lemma includes_inv l v :
  Js.includes l v = true -> exists s, v = Js.Str s /\ In s l.
Proof.
  destruct v; simpl; try discriminate. intros H.
  apply existsb_exists in H as (x & Hin & He).
  apply String.eqb_eq in He. subst. eauto.
Qed.

Lemma truthy_str s : Js.truthy (Js.Str s) = true -> s <> "".
Proof.
  simpl. intros H ->. discriminate.
Qed.

Lemma findById_discussion_inv db v d ops :
  DiscussionRepository.findById db v = Normal (Some (d, ops)) ->
  exists s, v = Js.Str s /\ Prisma.discussion_by_id db s = Some d.
Proof.
  unfold DiscussionRepository.findById, Prisma.discussion_findUnique.
  destruct v; simpl; try discriminate.
  destruct (Prisma.discussion_by_id db s) eqn:E; simpl; try discriminate.
  intros H. injection H as H _. subst. eauto.
Qed.

Lemma previous_inv db d s parentId v :
  OperationController.previous db d (Js.Str s) parentId = Normal (inr v) ->
  (Js.truthy parentId = false /\ v = Discussion.startingNumber d)
  \/ (exists p po, parentId = Js.Str p /\ p <> "" /\
                   Prisma.operation_by_id db p = Some po /\
                   Operation.discussionId po = s /\ v = Operation.result po).
Proof.
  unfold OperationController.previous.
  destruct (Js.truthy parentId) eqn:Ht.
  - unfold OperationRepository.findById, Prisma.operation_findUnique.
    destruct parentId; simpl; try discriminate.
    destruct (Prisma.operation_by_id db s0) as [po |] eqn:E; try discriminate.
    destruct (String.eqb (Operation.discussionId po) s) eqn:Es; simpl; try discriminate.
    intros H. injection H as <-. right. exists s0, po.
    apply String.eqb_eq in Es. repeat split; auto using truthy_str.
  - intros H. injection H as <-. now left.
Qed.

(** ** What each mutating route does to the store *)

Lemma create_discussion_cases env req db :
  snd (DiscussionController.create env req db) = db
  \/ exists d,
       Discussion.id d = Prisma.newId env /\
       Prisma.discussion_by_id db (Prisma.newId env) = None /\
       Prisma.discussion_findUnique_startingNumber db (Discussion.startingNumber d) = None /\
       snd (DiscussionController.create env req db)
       = {| Prisma.discussion := Prisma.discussion db ++ [d];
            Prisma.operation := Prisma.operation db |}.
Proof.
  unfold DiscussionController.create, catch.
  destruct (Js.nullish _); [now left |].
  unfold DiscussionModel.findByStartingNumber.
  destruct (Prisma.discussion_findUnique_startingNumber db _) eqn:Hn; [now left |].
  unfold DiscussionRepository.create, Prisma.discussion_create.
  destruct (Prisma.discussion_by_id db (Prisma.newId env)) eqn:Hi; simpl; [now left |].
  rewrite Hn. simpl. right. eexists. repeat split; simpl; eauto.
Qed.

Lemma update_discussion_cases req db :
  snd (DiscussionController.update req db) = db
  \/ exists d n,
       Prisma.discussion_by_id db (Discussion.id d) = Some d /\
       existsb (fun d' => negb (String.eqb (Discussion.id d') (Discussion.id d))
                          && Prisma.same_number (Discussion.startingNumber d') n)
               (Prisma.discussion db) = false /\
       Js.get (params req) "id" = Js.Str (Discussion.id d) /\
       snd (DiscussionController.update req db)
       = {| Prisma.discussion :=
              map (fun d' => if String.eqb (Discussion.id d') (Discussion.id d)
                             then Prisma.set_startingNumber n d' else d')
                  (Prisma.discussion db);
            Prisma.operation := Prisma.operation db |}.
Proof.
  unfold DiscussionController.update, catch.
  destruct (negb (Js.truthy _)); [now left |].
  destruct (Js.nullish _); [now left |].
  destruct (DiscussionRepository.findById db _) as [[[d ops] |] |] eqn:Hf;
    simpl; try now left.
  apply findById_discussion_inv in Hf as (s & Hs & Hd).
  destruct (negb (String.eqb _ _)); [now left |].
  match goal with
  | |- context [match ?t with Some _ => _ | None => _ end] => destruct t
  end; [now left |].
  unfold DiscussionRepository.update, Prisma.discussion_update.
  rewrite Hs. simpl. rewrite Hd. simpl.
  destruct (existsb _ _) eqn:He; simpl; [now left |].
  right. exists d, (Js.parseFloat (Js.get (body req) "startingNumber")).
  destruct (discussion_by_id_some _ _ _ Hd) as [_ Hid].
  subst s. auto.
Qed.

Lemma create_operation_cases env req db :
  snd (OperationController.create env req db) = db
  \/ exists o,
       created_in db o /\
       snd (OperationController.create env req db)
       = {| Prisma.discussion := Prisma.discussion db;
            Prisma.operation := Prisma.operation db ++ [o] |}.
Proof.
  unfold OperationController.create, catch.
  destruct (_ || _); [now left |].
  destruct (Js.includes _ _) eqn:Hinc; simpl; [| now left].
  apply includes_inv in Hinc as (op & Hop & Hvalid).
  destruct (DiscussionRepository.findById db _) as [[[d ops] |] |] eqn:Hf;
    simpl; try now left.
  apply findById_discussion_inv in Hf as (s & Hs & Hd).
  rewrite Hs, Hop.
  destruct (OperationController.previous db d (Js.Str s) _) as [[early | v] |] eqn:Hp;
    simpl; try now left.
  destruct (computeResult v op _) as [r |] eqn:Hc; simpl; [| now left].
  unfold OperationRepository.create, Prisma.operation_create.
  destruct (Prisma.operation_by_id db (Prisma.newId env)) eqn:Hi; simpl; [now left |].
  rewrite Hd.
  apply previous_inv in Hp as [[Ht ->] | (p & po & Hpid & Hne & Hpo & Hsame & ->)].
  - unfold Js.or_null. rewrite Ht. simpl. right. eexists. split; [| reflexivity].
    unfold created_in; simpl. repeat split; auto. exists d. auto.
  - rewrite Hpid. unfold Js.or_null.
    assert (Ht : Js.truthy (Js.Str p) = true).
    { simpl. apply negb_true_iff. now apply String.eqb_neq. }
    rewrite Ht. simpl. rewrite Hpo. simpl. right. eexists. split; [| reflexivity].
    unfold created_in; simpl. repeat split; auto. exists d. split; auto.
    split; auto. exists po. auto.
Qed.

(** ** Integrity is preserved by every route *)

Lemma same_key_eq {A : Type} (key : A -> string) (l : list A) (x y : A) :
  NoDup (map key l) -> In x l -> In y l -> key x = key y -> x = y.
Proof.
  intros Hnd Hx Hy Hk.
  pose proof (find_by_key key l x Hnd Hx) as Fx.
  pose proof (find_by_key key l y Hnd Hy) as Fy.
  rewrite Hk in Fx. rewrite Fx in Fy. now injection Fy.
Qed.

Lemma NoDup_snoc {A : Type} (l : list A) (x : A) :
  NoDup l -> ~ In x l -> NoDup (l ++ [x]).
Proof.
  intros Hnd Hx.
  apply (Permutation_NoDup (l := x :: l)).
  - apply Permutation_cons_append.
  - now constructor.
Qed.

Lemma app_snoc_cases {A : Type} (l1 l2 l : list A) (x o : A) :
  (l1 ++ x :: l2 = l ++ [o])%list ->
  (l2 = [] /\ l1 = l /\ x = o)
  \/ (exists l2', l2 = (l2' ++ [o])%list /\ l = (l1 ++ x :: l2')%list).
Proof.
  intros H.
  induction l2 as [| y l2' _] using rev_ind.
  - left.
    apply (app_inj_tail l1 l x o) in H as [-> ->]. auto.
  - right. exists l2'.
    change (l1 ++ x :: l2' ++ [y])%list with (l1 ++ (x :: l2') ++ [y])%list in H.
    rewrite app_assoc in H.
    apply app_inj_tail in H as [<- ->]. auto.
Qed.

Lemma wf_empty : WellFormed Prisma.empty.
Proof.
  constructor; simpl; try (intros; contradiction); try constructor.
  intros [| ? ?] ? ? H; discriminate H.
Qed.

Lemma find_startingNumber_none db n d :
  Prisma.discussion_findUnique_startingNumber db n = None ->
  In d (Prisma.discussion db) ->
  Prisma.same_number (Discussion.startingNumber d) n = false.
Proof.
  unfold Prisma.discussion_findUnique_startingNumber. intros H Hin.
  exact (find_none _ _ H d Hin).
Qed.

Lemma wf_add_discussion db d :
  WellFormed db ->
  Prisma.discussion_by_id db (Discussion.id d) = None ->
  Prisma.discussion_findUnique_startingNumber db (Discussion.startingNumber d) = None ->
  WellFormed {| Prisma.discussion := Prisma.discussion db ++ [d];
                Prisma.operation := Prisma.operation db |}.
Proof.
  intros [Hd Ho Hu He Hp Hr Ht] Hid Hn. constructor; simpl; auto.
  - rewrite map_app. simpl. apply NoDup_snoc; auto.
    now apply by_id_none_not_in.
  - intros x y Hx Hy Hs.
    apply in_app_iff in Hx as [Hx | [<- | []]];
      apply in_app_iff in Hy as [Hy | [<- | []]]; auto.
    + now rewrite (find_startingNumber_none db _ x Hn Hx) in Hs.
    + rewrite same_number_sym in Hs.
      now rewrite (find_startingNumber_none db _ y Hn Hy) in Hs.
  - intros o Hin. destruct (He o Hin) as (x & Hx & Hxi).
    exists x. split; auto. apply in_app_iff. auto.
Qed.

Lemma wf_update_discussion db d n :
  WellFormed db ->
  Prisma.discussion_by_id db (Discussion.id d) = Some d ->
  existsb (fun d' => negb (String.eqb (Discussion.id d') (Discussion.id d))
                     && Prisma.same_number (Discussion.startingNumber d') n)
          (Prisma.discussion db) = false ->
  WellFormed {| Prisma.discussion :=
                  map (fun d' => if String.eqb (Discussion.id d') (Discussion.id d)
                                 then Prisma.set_startingNumber n d' else d')
                      (Prisma.discussion db);
                Prisma.operation := Prisma.operation db |}.
Proof.
  intros [Hd Ho Hu He Hp Hr Ht] Hfound Hex.
  set (f := fun d' => if String.eqb (Discussion.id d') (Discussion.id d)
                      then Prisma.set_startingNumber n d' else d').
  assert (Hfid : forall x, Discussion.id (f x) = Discussion.id x).
  { intros x. unfold f. now destruct (String.eqb _ _). }
  assert (Hids : map Discussion.id (map f (Prisma.discussion db))
                 = map Discussion.id (Prisma.discussion db)).
  { rewrite map_map. apply map_ext. exact Hfid. }
  assert (Hother : forall x, In x (Prisma.discussion db) ->
                     String.eqb (Discussion.id x) (Discussion.id d) = false ->
                     Prisma.same_number (Discussion.startingNumber x) n = false).
  { intros x Hx Hne.
    destruct (Prisma.same_number (Discussion.startingNumber x) n) eqn:Hs; auto.
    rewrite <- Hex. symmetry. apply existsb_exists. exists x. split; auto.
    now rewrite Hne, Hs. }
  destruct (discussion_by_id_some _ _ _ Hfound) as [Hdin _].
  constructor; simpl; auto.
  - now rewrite Hids.
  - intros x y Hx Hy Hs.
    apply in_map_iff in Hx as (x0 & <- & Hx).
    apply in_map_iff in Hy as (y0 & <- & Hy).
    unfold f in *.
    destruct (String.eqb (Discussion.id x0) (Discussion.id d)) eqn:Ex;
      destruct (String.eqb (Discussion.id y0) (Discussion.id d)) eqn:Ey.
    + apply String.eqb_eq in Ex, Ey.
      rewrite (same_key_eq Discussion.id _ x0 d Hd Hx Hdin Ex).
      now rewrite (same_key_eq Discussion.id _ y0 d Hd Hy Hdin Ey).
    + simpl in Hs. rewrite same_number_sym in Hs.
      now rewrite (Hother y0 Hy Ey) in Hs.
    + simpl in Hs. now rewrite (Hother x0 Hx Ex) in Hs.
    + auto.
  - intros o Hin. destruct (He o Hin) as (x & Hx & Hxi).
    exists (f x). split.
    + now apply in_map.
    + now rewrite Hfid.
Qed.

Lemma wf_add_operation db o :
  WellFormed db -> created_in db o ->
  WellFormed {| Prisma.discussion := Prisma.discussion db;
                Prisma.operation := Prisma.operation db ++ [o] |}.
Proof.
  intros [Hd Ho Hu He Hp Hr Ht] (Hfresh & Hty & d & Hdisc & Hpar).
  assert (Hnew : ~ In (Operation.id o) (map Operation.id (Prisma.operation db))).
  { now apply by_id_none_not_in. }
  assert (Hparent : parent_before (Prisma.operation db) o).
  { unfold parent_before. destruct (Operation.parentId o) as [p |]; auto.
    destruct Hpar as (Hne & po & Hpo & Hsame & _).
    apply operation_by_id_some in Hpo as [Hin Hid]. split; eauto. }
  constructor; simpl; auto.
  - rewrite map_app. simpl. now apply NoDup_snoc.
  - intros x Hx. apply in_app_iff in Hx as [Hx | [<- | []]]; auto.
    apply discussion_by_id_some in Hdisc as [Hin Hid]. eauto.
  - intros l1 x l2 Heq. symmetry in Heq.
    apply app_snoc_cases in Heq as [(_ & -> & ->) | (l2' & _ & Hl)]; auto.
    now apply (Hp l1 x l2').
  - intros x Hx. unfold derived_from_parent.
    apply in_app_iff in Hx as [Hx | [<- | []]].
    + pose proof (Hr x Hx) as Hrx. unfold derived_from_parent in Hrx.
      destruct (Operation.parentId x) as [p |] eqn:Epx; auto.
      intros po Hpo Hpid. apply in_app_iff in Hpo as [Hpo | [<- | []]]; auto.
      exfalso. apply Hnew.
      apply in_split in Hx as (l1 & l2 & Hsplit).
      pose proof (Hp l1 x l2 Hsplit) as Hpb. unfold parent_before in Hpb.
      rewrite Epx in Hpb. destruct Hpb as (_ & q & Hq & Hqid & _).
      rewrite Hpid, <- Hqid. apply in_map. rewrite Hsplit.
      apply in_app_iff. auto.
    + destruct (Operation.parentId o) as [p |]; auto.
      destruct Hpar as (Hne & q & Hq & Hsame & Hcomp).
      intros po Hpo Hpid. apply in_app_iff in Hpo as [Hpo | [<- | []]].
      * apply operation_by_id_some in Hq as [Hqin Hqid].
        assert (po = q) as ->; auto.
        apply (same_key_eq Operation.id (Prisma.operation db)); auto.
        congruence.
      * exfalso. apply Hnew. rewrite Hpid.
        apply operation_by_id_some in Hq as [Hqin Hqid].
        rewrite <- Hqid. now apply in_map.
  - intros x Hx. apply in_app_iff in Hx as [Hx | [<- | []]];
      [exact (Ht x Hx) | exact Hty].
Qed.

Lemma step_wf db a : WellFormed db -> WellFormed (step db a).
Proof.
  intros Hwf. destruct a as [env req | req | env req]; simpl.
  - destruct (create_discussion_cases env req db) as [-> | (d & Hid & Hf & Hn & ->)]; auto.
    apply wf_add_discussion; auto. now rewrite Hid.
  - destruct (update_discussion_cases req db) as [-> | (d & n & Hf & He & _ & ->)]; auto.
    now apply wf_update_discussion.
  - destruct (create_operation_cases env req db) as [-> | (o & Hc & ->)]; auto.
    now apply wf_add_operation.
Qed.

Lemma reachable_by_wf allowed db : ReachableBy allowed db -> WellFormed db.
Proof.
  induction 1 as [| db a _ IH _]; [exact wf_empty | now apply step_wf].
Qed.

Lemma reachable_wf db : Reachable db -> WellFormed db.
Proof. apply reachable_by_wf. Qed.

Lemma run_snoc acts a : run (acts ++ [a]) = step (run acts) a.
Proof. unfold run. now rewrite fold_left_app. Qed.

Lemma run_reachable_by (allowed : Action -> Prop) acts :
  Forall allowed acts -> ReachableBy allowed (run acts).
Proof.
  induction acts as [| a acts IH] using rev_ind; intros Hall.
  - constructor.
  - rewrite run_snoc. apply Forall_app in Hall as [Hacts Ha].
    constructor; [now apply IH | now inversion Ha].
Qed.

Lemma run_reachable acts : Reachable (run acts).
Proof.
  apply run_reachable_by. apply Forall_forall. trivial.
Qed.

(** ** The chain resolver *)

Lemma chain_loop_more_fuel db fuel :
  forall cur acc r,
    OperationModel.chain_loop fuel db cur acc = Some r ->
    forall fuel', fuel <= fuel' ->
      OperationModel.chain_loop fuel' db cur acc = Some r.
Proof.
  induction fuel as [| fuel IH]; intros cur acc r H fuel' Hle; [discriminate |].
  destruct fuel' as [| fuel']; [lia |].
  simpl in *. destruct cur as [op |]; auto.
  destruct (OperationModel.no_parent op); auto.
  apply IH; [exact H | lia].
Qed.

Lemma no_parent_false o :
  OperationModel.no_parent o = false ->
  exists p, Operation.parentId o = Some p /\ p <> "".
Proof.
  unfold OperationModel.no_parent.
  destruct (Operation.parentId o) as [p |]; [| discriminate].
  intros H. exists p. split; auto. now apply String.eqb_neq.
Qed.

(** Along a parent edge the position in insertion order strictly
    decreases, so the loop started at the row in position [length l1]
    is left within [length l1 + 1] evaluations of its condition. *)
Lemma chain_loop_terminates db :
  WellFormed db ->
  forall fuel l1 o l2 acc,
    Prisma.operation db = (l1 ++ o :: l2)%list ->
    length l1 < fuel ->
    exists r, OperationModel.chain_loop fuel db (Some o) acc = Some r.
Proof.
  intros Hwf. induction fuel as [| fuel IH]; intros l1 o l2 acc Hsplit Hlt; [lia |].
  simpl. destruct (OperationModel.no_parent o) eqn:Hnp; [eauto |].
  apply no_parent_false in Hnp as (p & Hp & Hne). rewrite Hp.
  pose proof (wf_parent_before db Hwf l1 o l2 Hsplit) as Hpb.
  unfold parent_before in Hpb. rewrite Hp in Hpb.
  destruct Hpb as (_ & po & Hpo & Hid & _).
  assert (Hin : In po (Prisma.operation db)).
  { rewrite Hsplit. apply in_app_iff. auto. }
  rewrite <- Hid, (operation_by_id_of db po (wf_operation_ids db Hwf) Hin).
  apply in_split in Hpo as (a & b & ->).
  apply (IH a po (b ++ o :: l2)%list).
  - rewrite Hsplit, <- app_assoc. reflexivity.
  - rewrite length_app in Hlt. simpl in Hlt. lia.
Qed.

Lemma getOperationChain_total db operationId :
  WellFormed db ->
  exists chain,
    forall fuel, length (Prisma.operation db) < fuel ->
      OperationModel.getOperationChain fuel db operationId = Some chain.
Proof.
  intros Hwf. unfold OperationModel.getOperationChain.
  destruct (Prisma.operation_by_id db operationId) as [o |] eqn:Ho.
  - apply operation_by_id_some in Ho as [Hin _].
    apply in_split in Hin as (l1 & l2 & Hsplit).
    destruct (chain_loop_terminates db Hwf (S (length l1)) l1 o l2 [] Hsplit)
      as (r & Hr); [lia |].
    exists r. intros fuel Hf. apply (chain_loop_more_fuel _ _ _ _ _ Hr).
    rewrite Hsplit, length_app in Hf. simpl in Hf. lia.
  - exists []. intros [| fuel] Hf; [lia | reflexivity].
Qed.

Lemma path_in db l o : path db l o -> In o (Prisma.operation db).
Proof. now destruct 1. Qed.

Lemma path_last db l o : path db l o -> exists l', l = (l' ++ [o])%list.
Proof. destruct 1; [now exists [] | eauto]. Qed.

Lemma chain_loop_path db :
  WellFormed db ->
  forall l o, path db l o ->
    forall acc,
      OperationModel.chain_loop (length l) db (Some o) acc = Some (l ++ acc)%list.
Proof.
  intros Hwf. induction 1 as [o Hin Hnone | l p o Hpath IH Hin Hpar]; intros acc.
  - simpl. unfold OperationModel.no_parent. now rewrite Hnone.
  - rewrite length_app, Nat.add_comm. simpl.
    apply in_split in Hin as (l1 & l2 & Hsplit).
    pose proof (wf_parent_before db Hwf l1 o l2 Hsplit) as Hpb.
    unfold parent_before in Hpb. rewrite Hpar in Hpb. destruct Hpb as (Hne & _).
    unfold OperationModel.no_parent. rewrite Hpar.
    apply String.eqb_neq in Hne. rewrite Hne.
    rewrite (operation_by_id_of db p (wf_operation_ids db Hwf) (path_in _ _ _ Hpath)).
    rewrite IH, <- app_assoc. reflexivity.
Qed.

Lemma getOperationChain_path db l o :
  WellFormed db -> path db l o ->
  forall fuel, length (Prisma.operation db) < fuel ->
    OperationModel.getOperationChain fuel db (Operation.id o) = Some l.
Proof.
  intros Hwf Hpath fuel Hf.
  destruct (getOperationChain_total db (Operation.id o) Hwf) as (r & Hr).
  rewrite (Hr fuel Hf).
  pose proof (chain_loop_path db Hwf l o Hpath []) as Hl.
  rewrite app_nil_r in Hl.
  set (big := Nat.max (length l) (S (length (Prisma.operation db)))).
  pose proof (Hr big ltac:(unfold big; lia)) as Hbig.
  unfold OperationModel.getOperationChain in Hbig.
  rewrite (operation_by_id_of db o (wf_operation_ids db Hwf) (path_in _ _ _ Hpath)) in Hbig.
  rewrite (chain_loop_more_fuel db _ _ _ _ Hl big ltac:(unfold big; lia)) in Hbig.
  now injection Hbig as <-.
Qed.

(** ** Replaying a chain *)

Lemma replay_snoc v l o rs :
  replay v l = Normal rs ->
  replay v (l ++ [o])
  = let* r := computeResult (last rs v) (Operation.operationType o)
                            (Operation.operand o) in
    Normal (rs ++ [r])%list.
Proof.
  revert v rs. induction l as [| x l IH]; intros v rs H; simpl in *.
  - injection H as <-. simpl.
    now destruct (computeResult v _ _).
  - destruct (computeResult v (Operation.operationType x) (Operation.operand x))
      as [r |]; simpl in *; [| discriminate].
    destruct (replay r l) as [rs' |] eqn:Hrs; simpl in *; [| discriminate].
    injection H as <-.
    rewrite (IH r rs' Hrs).
    replace (last (r :: rs') v) with (last rs' r).
    + now destruct (computeResult (last rs' r) _ _).
    + clear. revert r. induction rs' as [| y rs' IH]; intros r; simpl; auto.
      destruct rs'; auto.
Qed.

Lemma last_map_snoc {A B : Type} (f : A -> B) (l : list A) (x : A) (d : B) :
  last (map f (l ++ [x])) d = f x.
Proof. rewrite map_app. simpl. apply last_last. Qed.

(** The first node of a path is a root operation of the discussion of its
    last node. *)
Lemma path_head db l o :
  WellFormed db -> path db l o ->
  exists o1 rest,
    l = o1 :: rest /\ In o1 (Prisma.operation db) /\
    Operation.parentId o1 = None /\
    Operation.discussionId o1 = Operation.discussionId o.
Proof.
  intros Hwf. induction 1 as [o Hin Hnone | l p o Hpath IH Hin Hpar].
  - exists o, []. auto.
  - destruct IH as (o1 & rest & -> & Hin1 & Hnone1 & Hd1).
    exists o1, (rest ++ [o])%list. repeat split; auto.
    rewrite Hd1.
    apply in_split in Hin as (l1 & l2 & Hsplit).
    pose proof (wf_parent_before db Hwf l1 o l2 Hsplit) as Hpb.
    unfold parent_before in Hpb. rewrite Hpar in Hpb.
    destruct Hpb as (_ & po & Hpo & Hid & Hsame).
    assert (po = p) as <-; auto.
    apply (same_key_eq Operation.id (Prisma.operation db)); auto.
    + apply (wf_operation_ids db Hwf).
    + rewrite Hsplit. apply in_app_iff. auto.
    + now apply path_in in Hpath.
Qed.

Lemma path_replay db l o v :
  WellFormed db -> path db l o ->
  (forall o1 rest, l = o1 :: rest ->
     computeResult v (Operation.operationType o1) (Operation.operand o1)
     = Normal (Operation.result o1)) ->
  replay v l = Normal (map Operation.result l).
Proof.
  intros Hwf Hpath. revert v.
  induction Hpath as [o Hin Hnone | l p o Hpath IH Hin Hpar]; intros v Hroot.
  - simpl. now rewrite (Hroot o [] eq_refl).
  - destruct (path_last _ _ _ Hpath) as (l' & ->).
    assert (Hl : replay v (l' ++ [p]) = Normal (map Operation.result (l' ++ [p]))).
    { apply IH. intros o1 rest Heq. apply (Hroot o1 (rest ++ [o])%list).
      now rewrite Heq. }
    rewrite (replay_snoc _ _ o _ Hl), last_map_snoc.
    pose proof (wf_derived db Hwf o Hin) as Hder.
    unfold derived_from_parent in Hder. rewrite Hpar in Hder.
    rewrite (Hder p (path_in _ _ _ Hpath) eq_refl). simpl.
    now rewrite (map_app Operation.result (l' ++ [p]) [o]).
Qed.

(** ** Root results and the starting number *)

Lemma discussion_by_id_snoc db d i :
  find (fun x => String.eqb (Discussion.id x) i) (Prisma.discussion db ++ [d])
  = match Prisma.discussion_by_id db i with
    | Some x => Some x
    | None => if String.eqb (Discussion.id d) i then Some d else None
    end.
Proof.
  unfold Prisma.discussion_by_id.
  induction (Prisma.discussion db) as [| y l IH]; simpl; auto.
  now destruct (String.eqb (Discussion.id y) i).
Qed.

Lemma discussion_by_id_exists db i d :
  In d (Prisma.discussion db) -> Discussion.id d = i ->
  exists x, Prisma.discussion_by_id db i = Some x.
Proof.
  intros Hin Hid. unfold Prisma.discussion_by_id.
  destruct (find _ _) eqn:E; [eauto |].
  apply (find_none _ _ E) in Hin. rewrite Hid, String.eqb_refl in Hin.
  discriminate.
Qed.

Lemma step_roots_agree did db a :
  WellFormed db -> ~ updates did a ->
  roots_agree did db -> roots_agree did (step db a).
Proof.
  intros Hwf Hnot Hagree. destruct a as [env req | req | env req]; simpl.
  - destruct (create_discussion_cases env req db) as [-> | (dn & Hid & Hf & Hn & ->)]; auto.
    intros d o Hd Ho Hdid Hnone. simpl in Ho.
    unfold Prisma.discussion_by_id in Hd. simpl in Hd.
    rewrite discussion_by_id_snoc in Hd.
    destruct (Prisma.discussion_by_id db did) as [x |] eqn:Hx.
    + injection Hd as <-. now apply (Hagree x o).
    + exfalso. destruct (wf_discussion_exists db Hwf o Ho) as (y & Hy & Hyid).
      rewrite Hdid in Hyid.
      destruct (discussion_by_id_exists db did y Hy Hyid) as (z & Hz).
      congruence.
  - destruct (update_discussion_cases req db) as [-> | (dt & n & Hf & He & Hreq & ->)]; auto.
    intros d o Hd Ho Hdid Hnone. simpl in Ho.
    apply discussion_by_id_some in Hd as [Hin Hid]. simpl in Hin.
    apply in_map_iff in Hin as (x & Hx & Hxin).
    assert (Hne : String.eqb (Discussion.id x) (Discussion.id dt) = false).
    { apply String.eqb_neq. intros Heq. apply Hnot. simpl. rewrite Hreq.
      f_equal. rewrite <- Heq, <- Hid, <- Hx.
      now destruct (String.eqb (Discussion.id x) (Discussion.id dt)). }
    rewrite Hne in Hx. subst x.
    apply (Hagree d o); auto.
    rewrite <- Hid. apply discussion_by_id_of; auto. apply (wf_discussion_ids db Hwf).
  - destruct (create_operation_cases env req db) as [-> | (on & Hc & ->)]; auto.
    intros d o Hd Ho Hdid Hnone. simpl in Ho.
    change (Prisma.discussion_by_id db did = Some d) in Hd.
    apply in_app_iff in Ho as [Ho | [<- | []]]; [now apply (Hagree d o) |].
    destruct Hc as (_ & _ & d' & Hd' & Hpar).
    rewrite Hnone in Hpar. rewrite Hdid, Hd in Hd'. now injection Hd' as <-.
Qed.

Lemma reachable_roots_agree (allowed : Action -> Prop) did db :
  (forall a, allowed a -> ~ updates did a) ->
  ReachableBy allowed db -> roots_agree did db.
Proof.
  intros Hallowed. induction 1 as [| db a Hreach IH Ha].
  - intros d o _ [].
  - apply step_roots_agree; auto. now apply (reachable_by_wf allowed).
Qed.

(** ** Chain correctness *)

(** C2, as the code has it.  In every store reached through the routes,
    the chain resolved for the last node of a parent path
    root -> o1 -> ... -> o is exactly that path.  When no PATCH of the
    path's discussion is among the actions that built the store,
    replaying [computeResult] along the chain from the discussion's
    [startingNumber] yields each node's stored result. *)
Theorem chain_is_path_and_replays (allowed : Action -> Prop) db l o :
  ReachableBy allowed db ->
  path db l o ->
  (forall fuel, length (Prisma.operation db) < fuel ->
     OperationModel.getOperationChain fuel db (Operation.id o) = Some l)
  /\ ((forall a, allowed a -> ~ updates (Operation.discussionId o) a) ->
      exists d,
        Prisma.discussion_by_id db (Operation.discussionId o) = Some d /\
        replay (Discussion.startingNumber d) l = Normal (map Operation.result l)).
Proof.
  intros Hreach Hpath.
  pose proof (reachable_by_wf allowed db Hreach) as Hwf.
  split; [now apply getOperationChain_path |].
  intros Hallowed.
  pose proof (reachable_roots_agree allowed _ db Hallowed Hreach) as Hagree.
  destruct (wf_discussion_exists db Hwf o (path_in _ _ _ Hpath)) as (d0 & Hd0 & Hid0).
  destruct (discussion_by_id_exists db _ d0 Hd0 Hid0) as (d & Hd).
  exists d. split; auto.
  apply (path_replay db l o); auto.
  intros x rest ->.
  destruct (path_head db _ o Hwf Hpath) as (x' & rest' & Heq & Hin & Hnone & Hsame).
  injection Heq as <- <-.
  now apply (Hagree d x).
Qed.

Lemma chain_is_path_and_replays_witness :
  OperationModel.getOperationChain 3 (run scenario) "o2" = Some [o1; o2]
  /\ exists d,
       Prisma.discussion_by_id (run scenario) "d1" = Some d /\
       replay (Discussion.startingNumber d) [o1; o2]
       = Normal (map Operation.result [o1; o2]).
Proof.
  destruct (chain_is_path_and_replays (fun a => In a scenario)
              (run scenario) [o1; o2] o2) as [Hchain Hreplay].
  - apply run_reachable_by. apply Forall_forall. trivial.
  - apply (path_child (run scenario) [o1] o1 o2).
    + apply path_root; [vm_compute; auto | reflexivity].
    + vm_compute; auto.
    + reflexivity.
  - split.
    + apply (Hchain 3). vm_compute. lia.
    + apply Hreplay. intros a [<- | [<- | [<- | []]]]; simpl; tauto.
Defined.

(** C2 fails as stated: after the author has changed the starting number
    from 42 to 5, replaying ADD 10 from the discussion's starting number
    gives 15, while the stored result is still 52. *)
Lemma replay_differs_after_update :
  Reachable (run scenario_updated)
  /\ path (run scenario_updated) [o1] o1
  /\ OperationModel.getOperationChain 2 (run scenario_updated) "o1" = Some [o1]
  /\ (exists d, Prisma.discussion_by_id (run scenario_updated) "d1" = Some d
                /\ Discussion.startingNumber d = 5%float)
  /\ replay 5 [o1] <> Normal (map Operation.result [o1]).
Proof.
  split; [apply run_reachable |].
  split; [apply path_root; [vm_compute; auto | reflexivity] |].
  split; [vm_compute; reflexivity |].
  split.
  - eexists. split; [vm_compute; reflexivity | reflexivity].
  - intros H.
    apply (f_equal (fun c => match c with
                             | Normal [x] => PrimFloat.eqb x 15
                             | _ => false
                             end)) in H.
    vm_compute in H. discriminate H.
Qed.

(** C6, as the code has it.  For an identifier that names no stored
    operation the loop body never runs and the resolver returns the empty
    chain. *)
Theorem getOperationChain_unknown db operationId fuel :
  Prisma.operation_by_id db operationId = None ->
  0 < fuel ->
  OperationModel.getOperationChain fuel db operationId = Some [].
Proof.
  intros Hnone Hfuel. unfold OperationModel.getOperationChain. rewrite Hnone.
  destruct fuel; [lia | reflexivity].
Qed.

Lemma getOperationChain_unknown_witness :
  OperationModel.getOperationChain 3 (run scenario) "o9" = Some [].
Proof.
  apply (getOperationChain_unknown (run scenario) "o9" 3).
  - vm_compute. reflexivity.
  - lia.
Defined.

(** C6 fails as stated: resolving an identifier that names no operation
    does not fail, it returns the empty chain. *)
Lemma getOperationChain_unknown_returns :
  Prisma.operation_by_id (run scenario) "o9" = None
  /\ OperationModel.getOperationChain 3 (run scenario) "o9" = Some [].
Proof. split; vm_compute; reflexivity. Qed.

(** C7.  In every store reached through the routes, a stored parent
    reference names an operation of the same discussion that was inserted
    strictly earlier, and the loop of [getOperationChain] is left after at
    most as many evaluations of its condition as there are operations,
    plus one. *)
Theorem getOperationChain_terminates db :
  Reachable db ->
  (forall l1 o l2 p,
      Prisma.operation db = (l1 ++ o :: l2)%list ->
      Operation.parentId o = Some p ->
      exists po, In po l1 /\ Operation.id po = p /\
                 Operation.discussionId po = Operation.discussionId o)
  /\ (forall operationId,
        exists chain,
          forall fuel, length (Prisma.operation db) < fuel ->
            OperationModel.getOperationChain fuel db operationId = Some chain).
Proof.
  intros Hreach. pose proof (reachable_wf db Hreach) as Hwf. split.
  - intros l1 o l2 p Hsplit Hp.
    pose proof (wf_parent_before db Hwf l1 o l2 Hsplit) as Hpb.
    unfold parent_before in Hpb. rewrite Hp in Hpb. tauto.
  - intros operationId. now apply getOperationChain_total.
Qed.

Lemma getOperationChain_terminates_witness :
  (forall l1 o l2 p,
      Prisma.operation (run scenario) = (l1 ++ o :: l2)%list ->
      Operation.parentId o = Some p ->
      exists po, In po l1 /\ Operation.id po = p /\
                 Operation.discussionId po = Operation.discussionId o)
  /\ (forall operationId,
        exists chain,
          forall fuel, length (Prisma.operation (run scenario)) < fuel ->
            OperationModel.getOperationChain fuel (run scenario) operationId
            = Some chain).
Proof.
  apply (getOperationChain_terminates (run scenario)).
  apply run_reachable.
Defined.

(** ** Creating and updating discussions *)

Lemma same_number_trans (x y z : float) :
  Prisma.same_number x y = true -> Prisma.same_number y z = true ->
  Prisma.same_number x z = true.
Proof.
  unfold Prisma.same_number. intros Hxy Hyz.
  destruct (PrimFloat.eqb x y) eqn:Exy.
  - assert (Hy : PrimFloat.is_nan y = false).
    { apply (eqb_not_nan_l y x). now rewrite eqb_sym. }
    rewrite Hy in Hyz. simpl in Hyz. rewrite orb_false_r in Hyz.
    now rewrite (eqb_trans x y z Exy Hyz).
  - simpl in Hxy. apply andb_true_iff in Hxy as [Hx Hy].
    destruct (PrimFloat.eqb y z) eqn:Eyz.
    + now rewrite (eqb_not_nan_l y z Eyz) in Hy.
    + simpl in Hyz. apply andb_true_iff in Hyz as [_ Hz].
      rewrite Hx, Hz. apply orb_true_r.
Qed.

Lemma find_startingNumber_of db d n :
  WellFormed db -> In d (Prisma.discussion db) ->
  Prisma.same_number (Discussion.startingNumber d) n = true ->
  Prisma.discussion_findUnique_startingNumber db n = Some d.
Proof.
  intros Hwf Hin Hs. unfold Prisma.discussion_findUnique_startingNumber.
  destruct (find _ _) as [e |] eqn:E.
  - apply find_some in E as [He Hse]. f_equal.
    apply (wf_unique_numbers db Hwf); auto.
    apply (same_number_trans _ n); auto. now rewrite same_number_sym.
  - apply (find_none _ _ E) in Hin. congruence.
Qed.

(** C3.  In every store reached through the routes no two discussions
    hold the same starting number; and a request to create a discussion
    whose starting number is already held by a discussion [d] is answered
    with 409, naming [d]'s id and starting number, and leaves the store
    as it was. *)
Theorem create_discussion_conflict db :
  Reachable db ->
  (forall d d', In d (Prisma.discussion db) -> In d' (Prisma.discussion db) ->
     Prisma.same_number (Discussion.startingNumber d)
                        (Discussion.startingNumber d') = true ->
     d = d')
  /\ (forall env req d,
        Js.nullish (Js.get (body req) "startingNumber") = false ->
        In d (Prisma.discussion db) ->
        Prisma.same_number (Discussion.startingNumber d)
                           (Js.parseFloat (Js.get (body req) "startingNumber")) = true ->
        DiscussionController.create env req db
        = (respond 409 (JConflict "This starting number is already taken"
                                  (Discussion.id d) (Discussion.startingNumber d)),
           db)).
Proof.
  intros Hreach. pose proof (reachable_wf db Hreach) as Hwf.
  split; [exact (wf_unique_numbers db Hwf) |].
  intros env req d Hpresent Hin Hsame.
  unfold DiscussionController.create, catch. rewrite Hpresent.
  unfold DiscussionModel.findByStartingNumber.
  now rewrite (find_startingNumber_of db d _ Hwf Hin Hsame).
Qed.

(** ** Creating operations *)

Section CreateOperation.

Variables (env : Prisma.Env) (req : AuthRequest) (db : Prisma.Db).
Variables (did op : string).

Hypothesis discussionId_given : Js.get (body req) "discussionId" = Js.Str did.
Hypothesis discussionId_not_empty : did <> "".
Hypothesis operationType_given : Js.get (body req) "operationType" = Js.Str op.
Hypothesis operationType_valid : In op OperationController.validOperations.
Hypothesis operand_given : Js.nullish (Js.get (body req) "operand") = false.

Lemma create_operation_validated :
  OperationController.create env req db
  = catch db
      (let* discussion := DiscussionRepository.findById db (Js.Str did) in
       match discussion with
       | None => Normal (respond 404 (JError "Discussion not found"), db)
       | Some (discussion, _) =>
           let* prev := OperationController.previous db discussion (Js.Str did)
                          (Js.get (body req) "parentId") in
           match prev with
           | inl early => Normal (early, db)
           | inr previousValue =>
               let* result :=
                 computeResult previousValue op
                               (Js.parseFloat (Js.get (body req) "operand")) in
               let* created :=
                 OperationRepository.create env did
                   (Js.or_null (Js.get (body req) "parentId")) op
                   (Js.parseFloat (Js.get (body req) "operand")) result
                   (userId req) db in
               Normal (respond 201 (JOperation (fst created)), snd created)
           end
       end).
Proof.
  unfold OperationController.create.
  rewrite discussionId_given, operationType_given, operand_given.
  assert (Ht : Js.truthy (Js.Str did) = true).
  { simpl. apply negb_true_iff. now apply String.eqb_neq. }
  assert (Ho : Js.truthy (Js.Str op) = true).
  { simpl. apply negb_true_iff. apply String.eqb_neq. intros ->.
    simpl in operationType_valid.
    destruct operationType_valid as [H | [H | [H | [H | []]]]]; discriminate H. }
  assert (Hi : Js.includes OperationController.validOperations (Js.Str op) = true).
  { unfold Js.includes. apply existsb_exists. exists op.
    split; auto. apply String.eqb_refl. }
  rewrite Ht, Ho, Hi. reflexivity.
Qed.

Lemma findById_found d :
  Prisma.discussion_by_id db did = Some d ->
  DiscussionRepository.findById db (Js.Str did)
  = Normal (Some (DiscussionRepository.with_operations db d)).
Proof.
  intros H. unfold DiscussionRepository.findById. simpl. now rewrite H.
Qed.

End CreateOperation.

(** C4.  For a request that passes the presence and operation-type
    checks: an unknown discussion is answered with 404 "Discussion not
    found"; a named parent that does not exist with 404 "Parent operation
    not found"; a named parent of another discussion with 400 "Parent
    operation does not belong to this discussion"; and a DIVIDE whose
    operand is zero with the error thrown by [computeResult].  In each
    case the store is left as it was. *)
Theorem create_operation_errors env req db did op :
  Js.get (body req) "discussionId" = Js.Str did ->
  did <> "" ->
  Js.get (body req) "operationType" = Js.Str op ->
  In op OperationController.validOperations ->
  Js.nullish (Js.get (body req) "operand") = false ->
  (Prisma.discussion_by_id db did = None ->
   OperationController.create env req db
   = (respond 404 (JError "Discussion not found"), db))
  /\ (forall d p,
        Prisma.discussion_by_id db did = Some d ->
        Js.get (body req) "parentId" = Js.Str p -> p <> "" ->
        (Prisma.operation_by_id db p = None ->
         OperationController.create env req db
         = (respond 404 (JError "Parent operation not found"), db))
        /\ (forall po,
              Prisma.operation_by_id db p = Some po ->
              Operation.discussionId po <> did ->
              OperationController.create env req db
              = (respond 400
                   (JError "Parent operation does not belong to this discussion"),
                 db)))
  /\ (forall d,
        Prisma.discussion_by_id db did = Some d ->
        (Js.truthy (Js.get (body req) "parentId") = false
         \/ exists p po,
              Js.get (body req) "parentId" = Js.Str p /\ p <> "" /\
              Prisma.operation_by_id db p = Some po /\
              Operation.discussionId po = did) ->
        op = "DIVIDE" ->
        PrimFloat.eqb (Js.parseFloat (Js.get (body req) "operand")) 0 = true ->
        OperationController.create env req db
        = (respond 500 (JError "Division by zero is not allowed"), db)).
Proof.
  intros Hdid Hne Hop Hvalid Hoperand.
  rewrite (create_operation_validated env req db did op Hdid Hne Hop Hvalid Hoperand).
  split; [| split].
  - intros Hnone. unfold DiscussionRepository.findById. simpl. now rewrite Hnone.
  - intros d p Hd Hp Hpne. rewrite (findById_found db did d Hd). simpl.
    unfold OperationController.previous. rewrite Hp.
    assert (Ht : Js.truthy (Js.Str p) = true).
    { simpl. apply negb_true_iff. now apply String.eqb_neq. }
    rewrite Ht. simpl. split.
    + intros Hnone. now rewrite Hnone.
    + intros po Hpo Hother. rewrite Hpo. simpl.
      apply String.eqb_neq in Hother. now rewrite Hother.
  - intros d Hd Hparent -> Hzero. rewrite (findById_found db did d Hd). simpl.
    assert (Hprev : exists v,
               OperationController.previous db d (Js.Str did)
                 (Js.get (body req) "parentId") = Normal (inr v)).
    { unfold OperationController.previous.
      destruct Hparent as [Hf | (p & po & Hp & Hpne & Hpo & Hsame)].
      - rewrite Hf. eauto.
      - rewrite Hp.
        assert (Ht : Js.truthy (Js.Str p) = true).
        { simpl. apply negb_true_iff. now apply String.eqb_neq. }
        rewrite Ht. simpl. rewrite Hpo. simpl. rewrite Hsame, String.eqb_refl.
        simpl. eauto. }
    destruct Hprev as (v & ->). simpl.
    unfold computeResult. simpl. now rewrite Hzero.
Qed.

(** C10.  When the [parentId] of the request is falsy, the parent block
    performs no lookup and yields the discussion's starting number, the
    stored parent reference is [null], and (for a request that passes the
    checks, names an existing discussion, and whose computation succeeds)
    the operation is inserted as a root operation. *)
Theorem create_operation_falsy_parent env req db :
  Js.truthy (Js.get (body req) "parentId") = false ->
  (forall d discussionId,
      OperationController.previous db d discussionId (Js.get (body req) "parentId")
      = Normal (inr (Discussion.startingNumber d)))
  /\ Js.or_null (Js.get (body req) "parentId") = None
  /\ (forall did op d r,
        Js.get (body req) "discussionId" = Js.Str did ->
        did <> "" ->
        Js.get (body req) "operationType" = Js.Str op ->
        In op OperationController.validOperations ->
        Js.nullish (Js.get (body req) "operand") = false ->
        Prisma.discussion_by_id db did = Some d ->
        computeResult (Discussion.startingNumber d) op
                      (Js.parseFloat (Js.get (body req) "operand")) = Normal r ->
        Prisma.operation_by_id db (Prisma.newId env) = None ->
        let o := {| Operation.id := Prisma.newId env;
                    Operation.discussionId := did;
                    Operation.parentId := None;
                    Operation.operationType := op;
                    Operation.operand := Js.parseFloat (Js.get (body req) "operand");
                    Operation.result := r;
                    Operation.authorId := userId req;
                    Operation.createdAt := Prisma.now env |} in
        OperationController.create env req db
        = (respond 201 (JOperation o),
           {| Prisma.discussion := Prisma.discussion db;
              Prisma.operation := Prisma.operation db ++ [o] |})).
Proof.
  intros Hfalsy. split; [| split].
  - intros d discussionId. unfold OperationController.previous. now rewrite Hfalsy.
  - unfold Js.or_null. now rewrite Hfalsy.
  - intros did op d r Hdid Hne Hop Hvalid Hoperand Hd Hr Hfresh o.
    rewrite (create_operation_validated env req db did op Hdid Hne Hop Hvalid Hoperand).
    rewrite (findById_found db did d Hd). simpl.
    unfold OperationController.previous, Js.or_null. rewrite Hfalsy. simpl.
    rewrite Hr. simpl.
    unfold OperationRepository.create, Prisma.operation_create.
    rewrite Hfresh, Hd. reflexivity.
Qed.

(** ** Updating the starting number *)

(** For a PATCH that names a discussion and carries a starting number:
    an unknown id is answered with 404; a requestor who is not the author
    with 403, whatever the new value; a new value held by a discussion
    with another id with 409; and a new value strictly equal ([===]) to
    the current one skips the lookup and is written back with 200.  NaN
    is not strictly equal to itself, so the last case does not cover a
    discussion whose starting number is NaN. *)
Theorem update_discussion_errors req db id :
  Js.get (params req) "id" = Js.Str id ->
  id <> "" ->
  Js.nullish (Js.get (body req) "startingNumber") = false ->
  (Prisma.discussion_by_id db id = None ->
   DiscussionController.update req db
   = (respond 404 (JError "Discussion not found"), db))
  /\ (forall d,
        Prisma.discussion_by_id db id = Some d ->
        Discussion.authorId d <> userId req ->
        DiscussionController.update req db
        = (respond 403 (JError "Not authorized to update this discussion"), db))
  /\ (forall d d',
        Reachable db ->
        Prisma.discussion_by_id db id = Some d ->
        Discussion.authorId d = userId req ->
        In d' (Prisma.discussion db) ->
        Discussion.id d' <> id ->
        Prisma.same_number (Discussion.startingNumber d')
                           (Js.parseFloat (Js.get (body req) "startingNumber")) = true ->
        DiscussionController.update req db
        = (respond 409
             (JConflict "This starting number is already taken by another discussion"
                        (Discussion.id d') (Discussion.startingNumber d')),
           db))
  /\ (forall d,
        Reachable db ->
        Prisma.discussion_by_id db id = Some d ->
        Discussion.authorId d = userId req ->
        PrimFloat.eqb (Js.parseFloat (Js.get (body req) "startingNumber"))
                      (Discussion.startingNumber d) = true ->
        let n := Js.parseFloat (Js.get (body req) "startingNumber") in
        DiscussionController.update req db
        = (respond 200 (JDiscussion (Prisma.set_startingNumber n d)),
           {| Prisma.discussion :=
                map (fun d' => if String.eqb (Discussion.id d') (Discussion.id d)
                               then Prisma.set_startingNumber n d' else d')
                    (Prisma.discussion db);
              Prisma.operation := Prisma.operation db |})).
Proof.
  intros Hid Hne Hpresent.
  assert (Ht : Js.truthy (Js.Str id) = true).
  { simpl. apply negb_true_iff. now apply String.eqb_neq. }
  unfold DiscussionController.update, catch. rewrite Hid, Ht, Hpresent. simpl.
  unfold DiscussionRepository.findById. simpl.
  split; [| split; [| split]].
  - intros Hnone. now rewrite Hnone.
  - intros d Hd Hauth. rewrite Hd. simpl.
    apply String.eqb_neq in Hauth. now rewrite Hauth.
  - intros d d' Hreach Hd Hauth Hin' Hother Hsame.
    pose proof (reachable_wf db Hreach) as Hwf.
    rewrite Hd. simpl. rewrite Hauth, String.eqb_refl. simpl.
    destruct (discussion_by_id_some _ _ _ Hd) as [Hin Hdid].
    destruct (PrimFloat.eqb _ (Discussion.startingNumber d)) eqn:Heq.
    + exfalso. apply Hother. rewrite <- Hdid. f_equal.
      apply (wf_unique_numbers db Hwf); auto.
      now apply (same_number_eqb _ _ _ Hsame).
    + simpl. unfold DiscussionModel.findByStartingNumber.
      now rewrite (find_startingNumber_of db d' _ Hwf Hin' Hsame).
  - intros d Hreach Hd Hauth Heq.
    pose proof (reachable_wf db Hreach) as Hwf.
    rewrite Hd. simpl. rewrite Hauth, String.eqb_refl. simpl.
    rewrite Heq. simpl.
    unfold DiscussionRepository.update, Prisma.discussion_update. simpl.
    rewrite Hd. simpl.
    destruct (discussion_by_id_some _ _ _ Hd) as [Hin Hdid].
    destruct (existsb _ _) eqn:Hex; [| reflexivity].
    exfalso. apply existsb_exists in Hex as (x & Hx & Hcond).
    apply andb_true_iff in Hcond as [Hxne Hxs].
    apply negb_true_iff, String.eqb_neq in Hxne. apply Hxne. f_equal.
    apply (wf_unique_numbers db Hwf); auto.
    now apply (same_number_eqb _ _ _ Hxs).
Qed.


(** ** Request validation *)

(** C8, as the code has it.  A request whose [startingNumber] is
    [undefined] or [null] (create or update a discussion), or whose
    [discussionId] or [operationType] is falsy, whose [operand] is
    [undefined] or [null], or whose [operationType] is not one of the four
    recognized strings (create an operation), is answered with 400 and
    leaves the store as it was. *)
Theorem missing_input_rejected db :
  (forall env req,
      Js.nullish (Js.get (body req) "startingNumber") = true ->
      DiscussionController.create env req db
      = (respond 400 (JError "startingNumber is required"), db))
  /\ (forall req,
        Js.nullish (Js.get (body req) "startingNumber") = true ->
        exists message,
          DiscussionController.update req db = (respond 400 (JError message), db))
  /\ (forall env req,
        Js.truthy (Js.get (body req) "discussionId") = false
        \/ Js.truthy (Js.get (body req) "operationType") = false
        \/ Js.nullish (Js.get (body req) "operand") = true ->
        OperationController.create env req db
        = (respond 400
             (JError "discussionId, operationType, and operand are required"), db))
  /\ (forall env req,
        Js.truthy (Js.get (body req) "discussionId") = true ->
        Js.truthy (Js.get (body req) "operationType") = true ->
        Js.nullish (Js.get (body req) "operand") = false ->
        (forall s, In s OperationController.validOperations ->
                   Js.get (body req) "operationType" <> Js.Str s) ->
        OperationController.create env req db
        = (respond 400
             (JError "operationType must be ADD, SUBTRACT, MULTIPLY, or DIVIDE"), db)).
Proof.
  split; [| split; [| split]].
  - intros env req H. unfold DiscussionController.create. now rewrite H.
  - intros req H. unfold DiscussionController.update. rewrite H.
    destruct (negb (Js.truthy _)); simpl; eauto.
  - intros env req H. unfold OperationController.create.
    destruct H as [H | [H | H]]; rewrite H; simpl;
      rewrite ?orb_true_r; reflexivity.
  - intros env req Hd Ho Hn Hnot. unfold OperationController.create.
    rewrite Hd, Ho, Hn. simpl.
    destruct (Js.includes _ _) eqn:Hinc; [| reflexivity].
    apply includes_inv in Hinc as (s & Hs & Hin).
    now destruct (Hnot s Hin).
Qed.

(** C8 fails as stated: an operand "10px" and a starting number "42abc"
    are not numeric, yet both requests are answered with 201 and a row is
    created from the number [parseFloat] finds at the front of the text. *)
Lemma non_numeric_input_accepted :
  OperationController.create env2 add_ten_px (run [CreateDiscussion env1 create_root])
  = (respond 201 (JOperation o1),
     {| Prisma.discussion := [d1]; Prisma.operation := [o1] |})
  /\ DiscussionController.create env1 create_root_text Prisma.empty
     = (respond 201 (JDiscussion d1),
        {| Prisma.discussion := [d1]; Prisma.operation := [] |}).
Proof. split; vm_compute; reflexivity. Qed.

(** ** Listings *)

Section OrderByFacts.

Context {A : Type}.
Variable le : A -> A -> bool.
Variable R : A -> A -> Prop.

Hypothesis le_R : forall x y, le x y = true -> R x y.
Hypothesis le_total : forall x y, le x y = false -> R y x.
Hypothesis R_trans : forall x y z, R x y -> R y z -> R x z.

Lemma insert_perm x l : Permutation (Prisma.insert le x l) (x :: l).
Proof.
  induction l as [| y l IH]; simpl; auto.
  destruct (le x y); auto.
  rewrite IH. apply perm_swap.
Qed.

Lemma orderBy_perm l : Permutation (Prisma.orderBy le l) l.
Proof.
  induction l as [| x l IH]; simpl; auto.
  rewrite insert_perm. now constructor.
Qed.

Lemma insert_sorted x l :
  StronglySorted R l -> StronglySorted R (Prisma.insert le x l).
Proof.
  induction 1 as [| y l Hs IH Hall]; simpl.
  - repeat constructor.
  - destruct (le x y) eqn:E.
    + constructor; [now constructor |].
      constructor; [now apply le_R |].
      apply Forall_forall. intros z Hz.
      apply (R_trans x y z); [now apply le_R |].
      now apply (proj1 (Forall_forall _ _) Hall).
    + constructor; auto.
      rewrite insert_perm. constructor; auto.
Qed.

Lemma orderBy_sorted l : StronglySorted R (Prisma.orderBy le l).
Proof.
  induction l as [| x l IH]; simpl; [constructor | now apply insert_sorted].
Qed.

End OrderByFacts.

Lemma findMany_asc_perm cond db :
  Permutation (Prisma.operation_findMany_asc cond db)
              (filter cond (Prisma.operation db)).
Proof. apply orderBy_perm. Qed.

Lemma findMany_asc_sorted cond db :
  StronglySorted oldest_first (Prisma.operation_findMany_asc cond db).
Proof.
  apply (orderBy_sorted Prisma.operation_asc oldest_first);
    unfold Prisma.operation_asc, oldest_first.
  - intros x y H. now apply Z.leb_le.
  - intros x y H. apply Z.leb_gt in H. lia.
  - intros x y z. lia.
Qed.

Lemma findAll_discussions db :
  map fst (DiscussionRepository.findAll db)
  = Prisma.orderBy Prisma.discussion_desc (Prisma.discussion db).
Proof.
  unfold DiscussionRepository.findAll. rewrite map_map. simpl. apply map_id.
Qed.

(** C9, as the code has it.  The operations of a discussion, the children
    of an operation and the root operations of a discussion are listed as
    exactly the matching rows, in non-decreasing order of creation time;
    all discussions are listed in non-increasing order of creation time,
    each with the listing of its operations; in a store reached through
    the routes no listing names an operation twice. *)
Theorem listings_ordered db :
  (forall discussionId,
      Permutation (OperationRepository.findByDiscussion db discussionId)
                  (filter (fun o => String.eqb (Operation.discussionId o) discussionId)
                          (Prisma.operation db))
      /\ StronglySorted oldest_first (OperationRepository.findByDiscussion db discussionId))
  /\ (forall operationId,
        Permutation (OperationModel.getChildren db operationId)
                    (filter (OperationModel.is_child_of operationId) (Prisma.operation db))
        /\ StronglySorted oldest_first (OperationModel.getChildren db operationId))
  /\ (forall discussionId,
        Permutation (OperationModel.getRootOperations db discussionId)
                    (filter (OperationModel.is_root_of discussionId) (Prisma.operation db))
        /\ StronglySorted oldest_first (OperationModel.getRootOperations db discussionId))
  /\ (Permutation (map fst (DiscussionRepository.findAll db)) (Prisma.discussion db)
      /\ StronglySorted newest_first (map fst (DiscussionRepository.findAll db))
      /\ forall d ops, In (d, ops) (DiscussionRepository.findAll db) ->
           ops = OperationRepository.findByDiscussion db (Discussion.id d))
  /\ (Reachable db ->
      forall cond, NoDup (map Operation.id (Prisma.operation_findMany_asc cond db))).
Proof.
  split; [| split; [| split; [| split]]].
  - intros discussionId. split; [apply findMany_asc_perm | apply findMany_asc_sorted].
  - intros operationId. split; [apply findMany_asc_perm | apply findMany_asc_sorted].
  - intros discussionId. split; [apply findMany_asc_perm | apply findMany_asc_sorted].
  - rewrite findAll_discussions. split; [apply orderBy_perm | split].
    + apply (orderBy_sorted Prisma.discussion_desc newest_first);
        unfold Prisma.discussion_desc, newest_first.
      * intros x y H. now apply Z.leb_le.
      * intros x y H. apply Z.leb_gt in H. lia.
      * intros x y z. lia.
    + intros d ops Hin. unfold DiscussionRepository.findAll in Hin.
      apply in_map_iff in Hin as (x & Hx & _).
      unfold DiscussionRepository.with_operations in Hx.
      now injection Hx as <- <-.
  - intros Hreach cond.
    pose proof (wf_operation_ids db (reachable_wf db Hreach)) as Hnd.
    apply (Permutation_NoDup (l := map Operation.id (filter cond (Prisma.operation db)))).
    + apply Permutation_map. symmetry. apply findMany_asc_perm.
    + clear Hreach. induction (Prisma.operation db) as [| o l IH]; simpl; [constructor |].
      inversion Hnd as [| ? ? Hnotin Hnd']; subst.
      destruct (cond o); simpl; auto.
      constructor; auto.
      intros Hin. apply Hnotin.
      apply in_map_iff in Hin as (x & Hx & Hxin).
      apply filter_In in Hxin as [Hxin _].
      rewrite <- Hx. now apply in_map.
Qed.

Lemma listings_ordered_witness :
  NoDup (map Operation.id
             (Prisma.operation_findMany_asc (fun _ => true) (run scenario))).
Proof.
  destruct (listings_ordered (run scenario)) as (_ & _ & _ & _ & Hnodup).
  exact (Hnodup (run_reachable scenario) (fun _ => true)).
Defined.

(** C9 fails as stated: two operations created in the same millisecond
    are listed in the order in which they were inserted, "b" before "a",
    not in the order of their identities. *)
Lemma ties_not_broken_by_identity :
  Reachable (run scenario_tied)
  /\ OperationRepository.findByDiscussion (run scenario_tied) "d1" = [tied "b"; tied "a"]
  /\ ~ StronglySorted oldest_first_then_id
         (OperationRepository.findByDiscussion (run scenario_tied) "d1").
Proof.
  split; [apply run_reachable |].
  assert (H : OperationRepository.findByDiscussion (run scenario_tied) "d1"
              = [tied "b"; tied "a"]) by (vm_compute; reflexivity).
  split; [exact H |].
  rewrite H. intros Hs. inversion Hs as [| ? ? _ Hall]; subst.
  inversion Hall as [| ? ? Hba _]; subst.
  destruct Hba as [Hlt | [_ Hleb]].
  - simpl in Hlt. lia.
  - vm_compute in Hleb. discriminate Hleb.
Qed.

(** ** The theorems at concrete requests *)

Lemma create_discussion_conflict_witness :
  DiscussionController.create env2 create_root (run one_discussion)
  = (respond 409 (JConflict "This starting number is already taken" "d1" 42),
     run one_discussion).
Proof.
  destruct (create_discussion_conflict (run one_discussion)
              (run_reachable one_discussion)) as [_ Hconflict].
  apply (Hconflict env2 create_root d1).
  - reflexivity.
  - vm_compute. auto.
  - vm_compute. reflexivity.
Defined.

Lemma ADD_valid : In "ADD" OperationController.validOperations.
Proof. simpl. auto. Qed.

Lemma DIVIDE_valid : In "DIVIDE" OperationController.validOperations.
Proof. simpl. auto. Qed.

Lemma create_operation_errors_witness :
  OperationController.create env3 (operation_request "d9" Js.Undefined "ADD" (Js.Num 1))
                             (run two_trees)
  = (respond 404 (JError "Discussion not found"), run two_trees)
  /\ OperationController.create env3
       (operation_request "d2" (Js.Str "o9") "ADD" (Js.Num 1)) (run two_trees)
     = (respond 404 (JError "Parent operation not found"), run two_trees)
  /\ OperationController.create env3
       (operation_request "d2" (Js.Str "o1") "ADD" (Js.Num 1)) (run two_trees)
     = (respond 400 (JError "Parent operation does not belong to this discussion"),
        run two_trees)
  /\ OperationController.create env3
       (operation_request "d1" (Js.Str "o1") "DIVIDE" (Js.Str "0.0")) (run two_trees)
     = (respond 500 (JError "Division by zero is not allowed"), run two_trees).
Proof.
  split; [| split; [| split]].
  - refine (proj1 (create_operation_errors env3
                     (operation_request "d9" Js.Undefined "ADD" (Js.Num 1))
                     (run two_trees) "d9" "ADD" eq_refl _ eq_refl ADD_valid eq_refl) _).
    + discriminate.
    + vm_compute. reflexivity.
  - refine (proj1 (proj1 (proj2 (create_operation_errors env3
                     (operation_request "d2" (Js.Str "o9") "ADD" (Js.Num 1))
                     (run two_trees) "d2" "ADD" eq_refl _ eq_refl ADD_valid eq_refl))
                     d2 "o9" _ eq_refl _) _).
    + discriminate.
    + vm_compute. reflexivity.
    + discriminate.
    + vm_compute. reflexivity.
  - refine (proj2 (proj1 (proj2 (create_operation_errors env3
                     (operation_request "d2" (Js.Str "o1") "ADD" (Js.Num 1))
                     (run two_trees) "d2" "ADD" eq_refl _ eq_refl ADD_valid eq_refl))
                     d2 "o1" _ eq_refl _) o1 _ _).
    + discriminate.
    + vm_compute. reflexivity.
    + discriminate.
    + vm_compute. reflexivity.
    + discriminate.
  - refine (proj2 (proj2 (create_operation_errors env3
                     (operation_request "d1" (Js.Str "o1") "DIVIDE" (Js.Str "0.0"))
                     (run two_trees) "d1" "DIVIDE" eq_refl _ eq_refl DIVIDE_valid eq_refl))
                  d1 _ _ eq_refl _).
    + discriminate.
    + vm_compute. reflexivity.
    + right. exists "o1", o1.
      split; [reflexivity |]. split; [discriminate |].
      split; [vm_compute; reflexivity | reflexivity].
    + vm_compute. reflexivity.
Defined.

Lemma update_discussion_errors_witness :
  DiscussionController.update (patch "alice" "d9" (Js.Num 7)) (run two_discussions)
  = (respond 404 (JError "Discussion not found"), run two_discussions)
  /\ DiscussionController.update (patch "bob" "d1" (Js.Num 42)) (run two_discussions)
     = (respond 403 (JError "Not authorized to update this discussion"),
        run two_discussions)
  /\ DiscussionController.update (patch "alice" "d1" (Js.Num 7)) (run two_discussions)
     = (respond 409
          (JConflict "This starting number is already taken by another discussion"
                     "d2" 7),
        run two_discussions)
  /\ DiscussionController.update (patch "alice" "d1" (Js.Str "42.0")) (run two_discussions)
     = (respond 200 (JDiscussion d1), run two_discussions).
Proof.
  split; [| split; [| split]].
  - refine (proj1 (update_discussion_errors (patch "alice" "d9" (Js.Num 7))
                     (run two_discussions) "d9" eq_refl _ eq_refl) _).
    + discriminate.
    + vm_compute. reflexivity.
  - refine (proj1 (proj2 (update_discussion_errors (patch "bob" "d1" (Js.Num 42))
                     (run two_discussions) "d1" eq_refl _ eq_refl)) d1 _ _).
    + discriminate.
    + vm_compute. reflexivity.
    + discriminate.
  - refine (proj1 (proj2 (proj2 (update_discussion_errors (patch "alice" "d1" (Js.Num 7))
                     (run two_discussions) "d1" eq_refl _ eq_refl)))
                  d1 d2 (run_reachable two_discussions) _ eq_refl _ _ _).
    + discriminate.
    + vm_compute. reflexivity.
    + vm_compute. auto.
    + discriminate.
    + vm_compute. reflexivity.
  - refine (proj2 (proj2 (proj2 (update_discussion_errors
                     (patch "alice" "d1" (Js.Str "42.0"))
                     (run two_discussions) "d1" eq_refl _ eq_refl)))
                  d1 (run_reachable two_discussions) _ eq_refl _).
    + discriminate.
    + vm_compute. reflexivity.
    + vm_compute. reflexivity.
Defined.

Lemma missing_input_rejected_witness :
  DiscussionController.create env2 (request "bob" Js.Undefined [("startingNumber", Js.Null)])
                              (run one_discussion)
  = (respond 400 (JError "startingNumber is required"), run one_discussion)
  /\ OperationController.create env2
       (operation_request "d1" Js.Undefined "POWER" (Js.Num 2)) (run one_discussion)
     = (respond 400 (JError "operationType must be ADD, SUBTRACT, MULTIPLY, or DIVIDE"),
        run one_discussion).
Proof.
  destruct (missing_input_rejected (run one_discussion)) as (Hcreate & _ & _ & Htype).
  split.
  - apply Hcreate. reflexivity.
  - refine (Htype env2 (operation_request "d1" Js.Undefined "POWER" (Js.Num 2))
                  eq_refl eq_refl eq_refl _).
    intros s [<- | [<- | [<- | [<- | []]]]]; discriminate.
Defined.

Lemma create_operation_falsy_parent_witness :
  OperationController.create env2
    (operation_request "d1" (Js.Str "") "ADD" (Js.Num 10)) (run one_discussion)
  = (respond 201
       (JOperation {| Operation.id := "o1"; Operation.discussionId := "d1";
                      Operation.parentId := None; Operation.operationType := "ADD";
                      Operation.operand := 10; Operation.result := 52;
                      Operation.authorId := "carol"; Operation.createdAt := 1001 |}),
     {| Prisma.discussion := Prisma.discussion (run one_discussion);
        Prisma.operation :=
          Prisma.operation (run one_discussion)
          ++ [{| Operation.id := "o1"; Operation.discussionId := "d1";
                 Operation.parentId := None; Operation.operationType := "ADD";
                 Operation.operand := 10; Operation.result := 52;
                 Operation.authorId := "carol"; Operation.createdAt := 1001 |}] |}).
Proof.
  destruct (create_operation_falsy_parent env2
              (operation_request "d1" (Js.Str "") "ADD" (Js.Num 10))
              (run one_discussion) eq_refl) as (_ & _ & Hroot).
  refine (Hroot "d1" "ADD" d1 52%float eq_refl _ eq_refl ADD_valid eq_refl _ _ _).
  - discriminate.
  - vm_compute. reflexivity.
  - vm_compute. reflexivity.
  - vm_compute. reflexivity.
Defined.

(** ** Outcomes of the mutating handlers *)

Lemma create_discussion_outcome env req db :
  (status (fst (DiscussionController.create env req db)) <> 201%Z
   /\ snd (DiscussionController.create env req db) = db)
  \/ exists d,
       DiscussionController.create env req db
       = (respond 201 (JDiscussion d),
          {| Prisma.discussion := Prisma.discussion db ++ [d];
             Prisma.operation := Prisma.operation db |})
       /\ Discussion.id d = Prisma.newId env
       /\ Discussion.startingNumber d
          = Js.parseFloat (Js.get (body req) "startingNumber")
       /\ Discussion.authorId d = userId req
       /\ Discussion.createdAt d = Prisma.now env
       /\ Prisma.discussion_by_id db (Prisma.newId env) = None
       /\ Prisma.discussion_findUnique_startingNumber db (Discussion.startingNumber d)
          = None.
Proof.
  unfold DiscussionController.create, catch.
  destruct (Js.nullish _); [left; split; [discriminate | reflexivity] |].
  unfold DiscussionModel.findByStartingNumber.
  destruct (Prisma.discussion_findUnique_startingNumber db _) eqn:Hn;
    [left; split; [discriminate | reflexivity] |].
  unfold DiscussionRepository.create, Prisma.discussion_create.
  destruct (Prisma.discussion_by_id db (Prisma.newId env)) eqn:Hi; simpl;
    [left; split; [discriminate | reflexivity] |].
  rewrite Hn. simpl. right. eexists. repeat split; simpl; auto.
Qed.

Lemma update_discussion_outcome req db :
  (status (fst (DiscussionController.update req db)) <> 200%Z
   /\ snd (DiscussionController.update req db) = db)
  \/ exists d,
       let n := Js.parseFloat (Js.get (body req) "startingNumber") in
       DiscussionController.update req db
       = (respond 200 (JDiscussion (Prisma.set_startingNumber n d)),
          {| Prisma.discussion :=
               map (fun d' => if String.eqb (Discussion.id d') (Discussion.id d)
                              then Prisma.set_startingNumber n d' else d')
                   (Prisma.discussion db);
             Prisma.operation := Prisma.operation db |})
       /\ Prisma.discussion_by_id db (Discussion.id d) = Some d
       /\ Js.get (params req) "id" = Js.Str (Discussion.id d)
       /\ Discussion.authorId d = userId req
       /\ existsb (fun d' => negb (String.eqb (Discussion.id d') (Discussion.id d))
                             && Prisma.same_number (Discussion.startingNumber d') n)
                  (Prisma.discussion db) = false.
Proof.
  unfold DiscussionController.update, catch.
  destruct (negb (Js.truthy _)); [left; split; [discriminate | reflexivity] |].
  destruct (Js.nullish _); [left; split; [discriminate | reflexivity] |].
  destruct (DiscussionRepository.findById db _) as [[[d ops] |] |] eqn:Hf;
    simpl; try (left; split; [discriminate | reflexivity]).
  apply findById_discussion_inv in Hf as (s & Hs & Hd).
  destruct (String.eqb (Discussion.authorId d) (userId req)) eqn:Hauth; simpl;
    [| left; split; [discriminate | reflexivity]].
  match goal with
  | |- context [match ?t with Some _ => _ | None => _ end] => destruct t
  end; [left; split; [discriminate | reflexivity] |].
  unfold DiscussionRepository.update, Prisma.discussion_update.
  rewrite Hs. simpl. rewrite Hd. simpl.
  destruct (existsb _ _) eqn:He; simpl;
    [left; split; [discriminate | reflexivity] |].
  right. exists d.
  destruct (discussion_by_id_some _ _ _ Hd) as [_ Hid]. subst s.
  apply String.eqb_eq in Hauth. simpl. auto.
Qed.

Lemma create_operation_outcome env req db :
  (status (fst (OperationController.create env req db)) <> 201%Z
   /\ snd (OperationController.create env req db) = db)
  \/ exists o,
       OperationController.create env req db
       = (respond 201 (JOperation o),
          {| Prisma.discussion := Prisma.discussion db;
             Prisma.operation := Prisma.operation db ++ [o] |})
       /\ created_in db o
       /\ Js.get (body req) "discussionId" = Js.Str (Operation.discussionId o)
       /\ Js.get (body req) "operationType" = Js.Str (Operation.operationType o)
       /\ Js.or_null (Js.get (body req) "parentId") = Operation.parentId o
       /\ Operation.operand o = Js.parseFloat (Js.get (body req) "operand")
       /\ Operation.id o = Prisma.newId env
       /\ Operation.authorId o = userId req
       /\ Operation.createdAt o = Prisma.now env.
Proof.
  unfold OperationController.create, catch.
  destruct (_ || _); [left; split; [discriminate | reflexivity] |].
  destruct (Js.includes _ _) eqn:Hinc; simpl;
    [| left; split; [discriminate | reflexivity]].
  apply includes_inv in Hinc as (op & Hop & Hvalid).
  destruct (DiscussionRepository.findById db _) as [[[d ops] |] |] eqn:Hf;
    simpl; try (left; split; [discriminate | reflexivity]).
  apply findById_discussion_inv in Hf as (s & Hs & Hd).
  rewrite Hs, Hop.
  destruct (OperationController.previous db d (Js.Str s) _) as [[early | v] |] eqn:Hp;
    simpl; try (left; split; [| reflexivity]).
  - unfold OperationController.previous in Hp.
    destruct (Js.truthy _); [| discriminate].
    destruct (OperationRepository.findById db _) as [[po |] |]; simpl in Hp;
      try discriminate.
    + destruct (negb _); [injection Hp as <-; discriminate | discriminate].
    + injection Hp as <-. discriminate.
  - destruct (computeResult v op _) as [r |] eqn:Hc; simpl;
      [| left; split; [discriminate | reflexivity]].
    unfold OperationRepository.create, Prisma.operation_create.
    destruct (Prisma.operation_by_id db (Prisma.newId env)) eqn:Hi; simpl;
      [left; split; [discriminate | reflexivity] |].
    rewrite Hd.
    apply previous_inv in Hp as [[Ht ->] | (p & po & Hpid & Hne & Hpo & Hsame & ->)].
    + unfold Js.or_null. rewrite Ht. simpl. right. eexists.
      split; [reflexivity |]. simpl.
      split; [| repeat split; auto].
      unfold created_in; simpl. repeat split; auto. exists d. auto.
    + rewrite Hpid. unfold Js.or_null.
      assert (Ht : Js.truthy (Js.Str p) = true).
      { simpl. apply negb_true_iff. now apply String.eqb_neq. }
      rewrite Ht. simpl. rewrite Hpo. simpl. right. eexists.
      split; [reflexivity |]. simpl.
      split; [| repeat split; auto].
      unfold created_in; simpl. repeat split; auto. exists d. split; auto.
      split; auto. exists po. auto.
  - discriminate.
Qed.

(** ** When the engine throws *)

(** [computeResult] throws in exactly two situations: the operation name
    is one that [isValidOperationType] rejects, or the operation is DIVIDE
    and the operand is zero.  For a valid name and any other operand it
    returns a number. *)
Theorem computeResult_throws v t w m :
  computeResult v t w = Throw m <->
  (OperationModel.isValidOperationType t = false
   /\ m = "Invalid operation type: " ++ t)
  \/ (t = "DIVIDE" /\ PrimFloat.eqb w 0 = true
      /\ m = "Division by zero is not allowed").
Proof.
  unfold computeResult, OperationModel.isValidOperationType,
    OperationModel.validOperationTypes. simpl.
  destruct (String.eqb t "ADD") eqn:E1; simpl.
  { apply String.eqb_eq in E1. subst t. split; [discriminate |].
    intros [[H _] | [H _]]; discriminate H. }
  destruct (String.eqb t "SUBTRACT") eqn:E2; simpl.
  { apply String.eqb_eq in E2. subst t. split; [discriminate |].
    intros [[H _] | [H _]]; discriminate H. }
  destruct (String.eqb t "MULTIPLY") eqn:E3; simpl.
  { apply String.eqb_eq in E3. subst t. split; [discriminate |].
    intros [[H _] | [H _]]; discriminate H. }
  destruct (String.eqb t "DIVIDE") eqn:E4; simpl.
  - apply String.eqb_eq in E4. subst t.
    destruct (PrimFloat.eqb w 0) eqn:Ez.
    + split.
      * intros H. right. repeat split. congruence.
      * intros [[H _] | (_ & _ & ->)]; [discriminate H | reflexivity].
    + split; [discriminate |].
      intros [[H _] | (_ & H & _)]; discriminate H.
  - split.
    + intros H. left. split; [reflexivity | congruence].
    + intros [[_ ->] | (-> & _)]; [reflexivity | discriminate E4].
Qed.

Lemma computeResult_throws_witness :
  computeResult 8 "DIVIDE" 0 = Throw "Division by zero is not allowed"
  /\ computeResult 8 "MODULO" 3 = Throw "Invalid operation type: MODULO".
Proof.
  split.
  - refine (proj2 (computeResult_throws 8 "DIVIDE" 0 _) _).
    right. repeat split.
  - refine (proj2 (computeResult_throws 8 "MODULO" 3 _) _).
    left. split; reflexivity.
Defined.

(** ** The two ways of resolving the previous value *)

(** For an existing discussion, [OperationModel.getPreviousValue] and the
    parent block of [OperationController.create] resolve the same previous
    value, and where the controller answers early the model throws an
    error with the same message. *)
Theorem getPreviousValue_agrees db did d parentId :
  Prisma.discussion_by_id db did = Some d ->
  match OperationController.previous db d (Js.Str did) (js_nullable parentId) with
  | Normal (inr v) =>
      OperationModel.getPreviousValue db did parentId = Normal v
  | Normal (inl early) =>
      exists m, OperationModel.getPreviousValue db did parentId = Throw m
                /\ json early = JError m
  | Throw _ => False
  end.
Proof.
  intros Hd.
  unfold OperationController.previous, OperationModel.getPreviousValue,
    OperationModel.named.
  destruct parentId as [p |]; simpl.
  - destruct (String.eqb p "") eqn:Ep; simpl.
    + now rewrite Hd.
    + destruct (Prisma.operation_by_id db p) as [po |]; simpl.
      * destruct (negb (String.eqb (Operation.discussionId po) did)); simpl; eauto.
      * eauto.
  - now rewrite Hd.
Qed.

Lemma getPreviousValue_agrees_witness :
  OperationModel.getPreviousValue (run scenario) "d1" (Some "o1") = Normal 52%float
  /\ OperationModel.getPreviousValue (run scenario) "d1" None = Normal 42%float.
Proof.
  split.
  - exact (getPreviousValue_agrees (run scenario) "d1" d1 (Some "o1") eq_refl).
  - exact (getPreviousValue_agrees (run scenario) "d1" d1 None eq_refl).
Defined.

(** ** What the routes never do *)

Lemma step_operations db a :
  exists added,
    Prisma.operation (step db a) = (Prisma.operation db ++ added)%list
    /\ length added <= 1
    /\ (added <> [] -> exists env req, a = CreateOperation env req).
Proof.
  destruct a as [env req | req | env req]; simpl.
  - exists []. rewrite app_nil_r. split; [| split; [auto | congruence]].
    destruct (create_discussion_cases env req db) as [-> | (d & _ & _ & _ & ->)];
      reflexivity.
  - exists []. rewrite app_nil_r. split; [| split; [auto | congruence]].
    destruct (update_discussion_cases req db) as [-> | (d & n & _ & _ & _ & ->)];
      reflexivity.
  - destruct (create_operation_cases env req db) as [-> | (o & _ & ->)].
    + exists []. rewrite app_nil_r. split; [| split; [auto | congruence]]. reflexivity.
    + exists [o]. simpl. split; [| split; [auto | eauto]]. reflexivity.
Qed.

(** Stored operations are permanent: whatever requests follow, the
    operation table keeps every row it has, unchanged and in the same
    position, and one request adds at most one row (only POST
    /api/operations adds one). *)
Theorem stored_operations_are_permanent acts :
  (forall more,
      exists added,
        Prisma.operation (run (acts ++ more))
        = (Prisma.operation (run acts) ++ added)%list)
  /\ (forall a,
        exists added,
          Prisma.operation (run (acts ++ [a]))
          = (Prisma.operation (run acts) ++ added)%list
          /\ length added <= 1
          /\ (added <> [] -> exists env req, a = CreateOperation env req)).
Proof.
  split.
  - intros more. induction more as [| a more IH] using rev_ind.
    + exists []. now rewrite !app_nil_r.
    + destruct IH as (added & Hadded).
      rewrite app_assoc, run_snoc.
      destruct (step_operations (run (acts ++ more)) a) as (one & Hone & _).
      exists (added ++ one)%list. now rewrite Hone, Hadded, app_assoc.
  - intros a. rewrite run_snoc. apply step_operations.
Qed.

(** A request leaves every discussion in the store, with its identity,
    author and creation time; its starting number changes only through a
    PATCH of that discussion sent by its author. *)
Theorem only_the_author_changes_a_discussion db a d :
  Reachable db ->
  In d (Prisma.discussion db) ->
  exists d',
    In d' (Prisma.discussion (step db a))
    /\ Discussion.id d' = Discussion.id d
    /\ Discussion.authorId d' = Discussion.authorId d
    /\ Discussion.createdAt d' = Discussion.createdAt d
    /\ (Discussion.startingNumber d' <> Discussion.startingNumber d ->
        exists req,
          a = UpdateDiscussion req
          /\ Js.get (params req) "id" = Js.Str (Discussion.id d)
          /\ userId req = Discussion.authorId d
          /\ Discussion.startingNumber d'
             = Js.parseFloat (Js.get (body req) "startingNumber")).
Proof.
  intros Hreach Hin. pose proof (reachable_wf db Hreach) as Hwf.
  assert (Hsame : In d (Prisma.discussion (step db a)) ->
                  exists d', In d' (Prisma.discussion (step db a))
                    /\ Discussion.id d' = Discussion.id d
                    /\ Discussion.authorId d' = Discussion.authorId d
                    /\ Discussion.createdAt d' = Discussion.createdAt d
                    /\ (Discussion.startingNumber d' <> Discussion.startingNumber d ->
                        exists req,
                          a = UpdateDiscussion req
                          /\ Js.get (params req) "id" = Js.Str (Discussion.id d)
                          /\ userId req = Discussion.authorId d
                          /\ Discussion.startingNumber d'
                             = Js.parseFloat (Js.get (body req) "startingNumber"))).
  { intros H. exists d. repeat split; auto. intros Hne. now destruct Hne. }
  destruct a as [env req | req | env req]; simpl in *.
  - apply Hsame.
    destruct (create_discussion_cases env req db) as [-> | (dn & _ & _ & _ & ->)];
      simpl; auto. apply in_app_iff. auto.
  - destruct (update_discussion_outcome req db)
      as [[_ Hdb] | (dt & Hupd & Hfound & Hreq & Hauth & _)].
    + apply Hsame. now rewrite Hdb.
    + rewrite Hupd. simpl.
      set (n := Js.parseFloat (Js.get (body req) "startingNumber")).
      set (f := fun d' => if String.eqb (Discussion.id d') (Discussion.id dt)
                          then Prisma.set_startingNumber n d' else d').
      exists (f d). split; [now apply in_map |]. unfold f.
      destruct (String.eqb (Discussion.id d) (Discussion.id dt)) eqn:E; simpl.
      * apply String.eqb_eq in E.
        destruct (discussion_by_id_some _ _ _ Hfound) as [Hdt _].
        assert (d = dt) as ->.
        { apply (same_key_eq Discussion.id (Prisma.discussion db)); auto.
          apply (wf_discussion_ids db Hwf). }
        repeat split; auto. intros _. exists req. auto.
      * repeat split; auto. intros Hne. now destruct Hne.
  - apply Hsame.
    destruct (create_operation_cases env req db) as [-> | (o & _ & ->)]; auto.
Qed.

Lemma only_the_author_changes_a_discussion_witness :
  exists d',
    In d' (Prisma.discussion
             (step (run two_discussions) (UpdateDiscussion (patch "alice" "d1" (Js.Num 5)))))
    /\ Discussion.id d' = Discussion.id d1
    /\ Discussion.authorId d' = Discussion.authorId d1
    /\ Discussion.createdAt d' = Discussion.createdAt d1
    /\ (Discussion.startingNumber d' <> Discussion.startingNumber d1 ->
        exists req,
          UpdateDiscussion (patch "alice" "d1" (Js.Num 5)) = UpdateDiscussion req
          /\ Js.get (params req) "id" = Js.Str (Discussion.id d1)
          /\ userId req = Discussion.authorId d1
          /\ Discussion.startingNumber d'
             = Js.parseFloat (Js.get (body req) "startingNumber")).
Proof.
  refine (only_the_author_changes_a_discussion (run two_discussions)
            (UpdateDiscussion (patch "alice" "d1" (Js.Num 5))) d1
            (run_reachable two_discussions) _).
  vm_compute. auto.
Defined.

(** ** Looking up what was just written *)

Lemma find_snoc {A : Type} (f : A -> bool) (l : list A) (x : A) :
  find f (l ++ [x])
  = match find f l with
    | Some y => Some y
    | None => if f x then Some x else None
    end.
Proof.
  induction l as [| y l IH]; simpl; auto.
  now destruct (f y).
Qed.

Lemma filter_none {A : Type} (f : A -> bool) (l : list A) :
  (forall x, In x l -> f x = false) -> filter f l = [].
Proof.
  induction l as [| y l IH]; simpl; intros H; auto.
  rewrite (H y (or_introl eq_refl)). apply IH. auto.
Qed.

Lemma no_operations_of_unknown_discussion db i :
  WellFormed db -> Prisma.discussion_by_id db i = None ->
  filter (fun o => String.eqb (Operation.discussionId o) i) (Prisma.operation db) = [].
Proof.
  intros Hwf Hnone. apply filter_none. intros o Ho.
  destruct (wf_discussion_exists db Hwf o Ho) as (d & Hd & Hid).
  apply String.eqb_neq. intros Heq.
  apply (by_id_none_not_in Discussion.id _ _ Hnone).
  rewrite <- Heq, <- Hid. now apply in_map.
Qed.

(** A discussion that POST /api/discussions has created (the number was
    not taken) is found by its starting number and is returned by GET
    /api/discussions/:id, with no operations. *)
Theorem created_discussion_is_found env req db :
  Reachable db ->
  Js.nullish (Js.get (body req) "startingNumber") = false ->
  DiscussionModel.isStartingNumberTaken db
    (Js.parseFloat (Js.get (body req) "startingNumber")) = false ->
  Prisma.discussion_by_id db (Prisma.newId env) = None ->
  Prisma.newId env <> "" ->
  let d := {| Discussion.id := Prisma.newId env;
              Discussion.startingNumber :=
                Js.parseFloat (Js.get (body req) "startingNumber");
              Discussion.authorId := userId req;
              Discussion.createdAt := Prisma.now env |} in
  let db' := snd (DiscussionController.create env req db) in
  fst (DiscussionController.create env req db) = respond 201 (JDiscussion d)
  /\ DiscussionModel.findByStartingNumber db' (Discussion.startingNumber d) = Some d
  /\ DiscussionModel.isAuthor db' (Prisma.newId env) (userId req) = true
  /\ (forall get,
        Js.get (params get) "id" = Js.Str (Prisma.newId env) ->
        DiscussionController.getById get db'
        = (respond 200 (JDiscussionFull (d, [])), db')).
Proof.
  intros Hreach Hpresent Hfree Hfresh Hid d db'.
  pose proof (reachable_wf db Hreach) as Hwf.
  unfold DiscussionModel.isStartingNumberTaken in Hfree.
  destruct (Prisma.discussion_findUnique_startingNumber db _) eqn:Hnone;
    [discriminate |].
  assert (Hcreate : DiscussionController.create env req db
                    = (respond 201 (JDiscussion d),
                       {| Prisma.discussion := Prisma.discussion db ++ [d];
                          Prisma.operation := Prisma.operation db |})).
  { unfold DiscussionController.create, catch. rewrite Hpresent.
    unfold DiscussionModel.findByStartingNumber. rewrite Hnone.
    unfold DiscussionRepository.create, Prisma.discussion_create.
    rewrite Hfresh, Hnone. reflexivity. }
  assert (Hbyid : Prisma.discussion_by_id db' (Prisma.newId env) = Some d).
  { unfold db'. rewrite Hcreate. unfold Prisma.discussion_by_id. simpl.
    rewrite find_snoc. fold (Prisma.discussion_by_id db (Prisma.newId env)).
    rewrite Hfresh. simpl. now rewrite String.eqb_refl. }
  split; [now rewrite Hcreate |].
  split; [| split].
  - unfold db'. rewrite Hcreate.
    unfold DiscussionModel.findByStartingNumber,
      Prisma.discussion_findUnique_startingNumber. simpl.
    rewrite find_snoc.
    unfold Prisma.discussion_findUnique_startingNumber in Hnone. rewrite Hnone.
    simpl. now rewrite same_number_refl.
  - unfold DiscussionModel.isAuthor. rewrite Hbyid. simpl. apply String.eqb_refl.
  - intros get Hget. unfold DiscussionController.getById, catch. rewrite Hget.
    assert (Ht : Js.truthy (Js.Str (Prisma.newId env)) = true).
    { simpl. apply negb_true_iff. now apply String.eqb_neq. }
    rewrite Ht. simpl. unfold DiscussionRepository.findById. simpl.
    rewrite Hbyid. simpl.
    unfold DiscussionRepository.with_operations, Prisma.operation_findMany_asc.
    unfold db'. rewrite Hcreate. simpl.
    now rewrite (no_operations_of_unknown_discussion db _ Hwf Hfresh).
Qed.

Lemma created_discussion_is_found_witness :
  fst (DiscussionController.create env1 create_root Prisma.empty)
  = respond 201 (JDiscussion d1)
  /\ DiscussionModel.findByStartingNumber (run one_discussion) 42 = Some d1
  /\ DiscussionModel.isAuthor (run one_discussion) "d1" "alice" = true
  /\ (forall get,
        Js.get (params get) "id" = Js.Str "d1" ->
        DiscussionController.getById get (run one_discussion)
        = (respond 200 (JDiscussionFull (d1, [])), run one_discussion)).
Proof.
  refine (created_discussion_is_found env1 create_root Prisma.empty
            (run_reachable []) eq_refl eq_refl eq_refl _).
  discriminate.
Defined.

(** ** Chains grow with the tree *)

Lemma path_exists db :
  WellFormed db ->
  forall o, In o (Prisma.operation db) -> exists l, path db l o.
Proof.
  intros Hwf.
  assert (H : forall n l1 o l2,
             Prisma.operation db = (l1 ++ o :: l2)%list -> length l1 < n ->
             exists l, path db l o).
  { induction n as [| n IH]; intros l1 o l2 Hsplit Hlt; [lia |].
    assert (Hin : In o (Prisma.operation db)).
    { rewrite Hsplit. apply in_app_iff. simpl. auto. }
    pose proof (wf_parent_before db Hwf l1 o l2 Hsplit) as Hpb.
    unfold parent_before in Hpb.
    destruct (Operation.parentId o) as [p |] eqn:Hp.
    - destruct Hpb as (_ & po & Hpo & Hid & _).
      destruct (in_split _ _ Hpo) as (a & b & Hl1).
      destruct (IH a po (b ++ o :: l2)%list) as (l & Hl).
      + rewrite Hsplit, Hl1, <- app_assoc. reflexivity.
      + rewrite Hl1, length_app in Hlt. simpl in Hlt. lia.
      + exists (l ++ [o])%list. apply (path_child db l po o); auto.
        now rewrite Hid.
    - exists [o]. now apply path_root. }
  intros o Hin. apply in_split in Hin as (l1 & l2 & Hsplit).
  apply (H (S (length l1)) l1 o l2 Hsplit). lia.
Qed.

Lemma path_after_insert db l o x :
  path db l o ->
  path {| Prisma.discussion := Prisma.discussion db;
          Prisma.operation := Prisma.operation db ++ [x] |} l o.
Proof.
  induction 1 as [o Hin Hnone | l p o Hpath IH Hin Hpar].
  - apply path_root; auto. simpl. apply in_app_iff. auto.
  - apply (path_child _ l p o); auto. simpl. apply in_app_iff. auto.
Qed.

(** The chain of an operation that POST /api/operations has just created
    is the chain of its parent followed by the new operation, or the new
    operation alone when it has no parent. *)
Theorem chain_of_created_operation env req db o db' :
  Reachable db ->
  OperationController.create env req db = (respond 201 (JOperation o), db') ->
  forall fuel, length (Prisma.operation db') < fuel ->
    OperationModel.getOperationChain fuel db' (Operation.id o)
    = match Operation.parentId o with
      | None => Some [o]
      | Some p =>
          option_map (fun chain => chain ++ [o])%list
                     (OperationModel.getOperationChain fuel db p)
      end.
Proof.
  intros Hreach Hcreate fuel Hfuel.
  pose proof (reachable_wf db Hreach) as Hwf.
  destruct (create_operation_outcome env req db)
    as [[Hstatus _] | (o' & Hout & Hcreated & _)].
  { rewrite Hcreate in Hstatus. now destruct Hstatus. }
  rewrite Hcreate in Hout. injection Hout as -> ->.
  pose proof (wf_add_operation db o' Hwf Hcreated) as Hwf'.
  assert (Hnew : In o' (Prisma.operation db ++ [o'])).
  { apply in_app_iff. simpl. auto. }
  simpl in Hfuel. rewrite length_app in Hfuel. simpl in Hfuel.
  destruct Hcreated as (_ & _ & d & _ & Hpar).
  destruct (Operation.parentId o') as [p |] eqn:Hp.
  - destruct Hpar as (_ & po & Hpo & _).
    apply operation_by_id_some in Hpo as [Hpoin Hpoid].
    destruct (path_exists db Hwf po Hpoin) as (l & Hl).
    rewrite <- Hpoid.
    rewrite (getOperationChain_path db l po Hwf Hl fuel); [| lia]. simpl.
    apply (getOperationChain_path _ (l ++ [o']) o' Hwf').
    + apply (path_child _ l po o'); auto.
      * now apply path_after_insert.
      * now rewrite Hpoid.
    + simpl. rewrite length_app. simpl. lia.
  - apply (getOperationChain_path _ [o'] o' Hwf').
    + now apply path_root.
    + simpl. rewrite length_app. simpl. lia.
Qed.

Lemma chain_of_created_operation_witness :
  OperationModel.getOperationChain 3 (run scenario) "o2" = Some [o1; o2].
Proof.
  refine (chain_of_created_operation env3 times_two
            (run [CreateDiscussion env1 create_root; CreateOperation env2 add_ten])
            o2 (run scenario) (run_reachable _) _ 3 _).
  - vm_compute. reflexivity.
  - vm_compute. lia.
Defined.

Lemma operation_by_id_snoc db o i :
  find (fun x => String.eqb (Operation.id x) i) (Prisma.operation db ++ [o])
  = match Prisma.operation_by_id db i with
    | Some x => Some x
    | None => if String.eqb (Operation.id o) i then Some o else None
    end.
Proof.
  exact (find_snoc (fun x => String.eqb (Operation.id x) i) (Prisma.operation db) o).
Qed.

(** An operation that POST /api/operations has just created is returned
    by GET /api/operations/:id, is listed among the operations of its
    discussion, has the requesting user as its author, and has no
    children. *)
Theorem created_operation_is_found env req db o db' :
  Reachable db ->
  OperationController.create env req db = (respond 201 (JOperation o), db') ->
  Operation.id o <> "" ->
  (forall get,
      Js.get (params get) "id" = Js.Str (Operation.id o) ->
      OperationController.getById get db' = (respond 200 (JOperation o), db'))
  /\ In o (OperationRepository.findByDiscussion db' (Operation.discussionId o))
  /\ OperationModel.isAuthor db' (Operation.id o) (userId req) = true
  /\ OperationModel.getChildren db' (Operation.id o) = [].
Proof.
  intros Hreach Hcreate Hid.
  pose proof (reachable_wf db Hreach) as Hwf.
  destruct (create_operation_outcome env req db)
    as [[Hstatus _] | (o' & Hout & Hcreated & _ & _ & _ & _ & _ & Hauthor & _)].
  { rewrite Hcreate in Hstatus. now destruct Hstatus. }
  rewrite Hcreate in Hout. injection Hout as -> ->.
  assert (Hfresh : Prisma.operation_by_id db (Operation.id o') = None)
    by apply Hcreated.
  assert (Hbyid : Prisma.operation_by_id
                    {| Prisma.discussion := Prisma.discussion db;
                       Prisma.operation := Prisma.operation db ++ [o'] |}
                    (Operation.id o') = Some o').
  { unfold Prisma.operation_by_id at 1. simpl.
    rewrite operation_by_id_snoc, Hfresh. now rewrite String.eqb_refl. }
  split; [| split; [| split]].
  - intros get Hget. unfold OperationController.getById, catch. rewrite Hget.
    assert (Ht : Js.truthy (Js.Str (Operation.id o')) = true).
    { simpl. apply negb_true_iff. now apply String.eqb_neq. }
    rewrite Ht. simpl. unfold OperationRepository.findById. simpl.
    now rewrite Hbyid.
  - apply (Permutation_in (l := filter (fun x => String.eqb (Operation.discussionId x)
                                                    (Operation.discussionId o'))
                                       (Prisma.operation db ++ [o']))).
    + symmetry. apply findMany_asc_perm.
    + apply filter_In. split; [| apply String.eqb_refl].
      apply in_app_iff. simpl. auto.
  - unfold OperationModel.isAuthor. rewrite Hbyid. rewrite Hauthor.
    apply String.eqb_refl.
  - unfold OperationModel.getChildren, Prisma.operation_findMany_asc. simpl.
    rewrite filter_none; [reflexivity |].
    intros x Hx. unfold OperationModel.is_child_of.
    destruct (Operation.parentId x) as [p |] eqn:Hp; auto.
    apply String.eqb_neq. intros Heq. subst p.
    pose proof (wf_add_operation db o' Hwf Hcreated) as Hwf'.
    apply in_split in Hx as (l1 & l2 & Hsplit).
    pose proof (wf_parent_before _ Hwf' l1 x l2 Hsplit) as Hpb.
    unfold parent_before in Hpb. rewrite Hp in Hpb.
    destruct Hpb as (_ & po & Hpo & Hpoid & _).
    simpl in Hsplit. symmetry in Hsplit.
    apply app_snoc_cases in Hsplit as [(_ & -> & ->) | (l2' & _ & Hl)].
    + apply (by_id_none_not_in Operation.id _ _ Hfresh).
      rewrite <- Hpoid. now apply in_map.
    + apply (by_id_none_not_in Operation.id _ _ Hfresh).
      rewrite <- Hpoid. apply in_map. rewrite Hl. apply in_app_iff. auto.
Qed.

Lemma created_operation_is_found_witness :
  (forall get,
      Js.get (params get) "id" = Js.Str "o2" ->
      OperationController.getById get (run scenario)
      = (respond 200 (JOperation o2), run scenario))
  /\ In o2 (OperationRepository.findByDiscussion (run scenario) "d1")
  /\ OperationModel.isAuthor (run scenario) "o2" "carol" = true
  /\ OperationModel.getChildren (run scenario) "o2" = [].
Proof.
  refine (created_operation_is_found env3 times_two
            (run [CreateDiscussion env1 create_root; CreateOperation env2 add_ten])
            o2 (run scenario) (run_reachable _) _ _).
  - vm_compute. reflexivity.
  - discriminate.
Defined.

(** ** Counting *)

(** [countByDiscussion] is the length of the listing of the discussion,
    and a POST /api/operations raises the count of the discussion it names
    by one when it answers 201 and leaves every count as it was
    otherwise. *)
Theorem countByDiscussion_counts db discussionId :
  OperationModel.countByDiscussion db discussionId
  = length (OperationRepository.findByDiscussion db discussionId)
  /\ forall env req,
       OperationModel.countByDiscussion
         (snd (OperationController.create env req db)) discussionId
       = OperationModel.countByDiscussion db discussionId
         + (if (status (fst (OperationController.create env req db)) =? 201)%Z
               && negb (Js.string_strict_ne discussionId
                          (Js.get (body req) "discussionId"))
            then 1 else 0).
Proof.
  split.
  - unfold OperationModel.countByDiscussion.
    symmetry. apply Permutation_length. apply findMany_asc_perm.
  - intros env req.
    destruct (create_operation_outcome env req db)
      as [[Hstatus ->] | (o & -> & _ & Hdid & _)].
    + apply Z.eqb_neq in Hstatus. rewrite Hstatus. simpl. lia.
    + simpl. rewrite Hdid. simpl.
      unfold OperationModel.countByDiscussion. simpl.
      rewrite filter_app, length_app. simpl.
      rewrite (String.eqb_sym discussionId).
      destruct (String.eqb (Operation.discussionId o) discussionId); reflexivity.
Qed.

(** ** The forest of a discussion *)

(** In a store reached through the routes, the operations of a
    discussion are its root operations together with the children of its
    operations, and no operation is both. *)
Theorem operations_form_a_forest db discussionId o :
  Reachable db ->
  (In o (OperationRepository.findByDiscussion db discussionId) <->
   In o (OperationModel.getRootOperations db discussionId)
   \/ exists po, In po (OperationRepository.findByDiscussion db discussionId)
                 /\ In o (OperationModel.getChildren db (Operation.id po)))
  /\ ~ (In o (OperationModel.getRootOperations db discussionId)
        /\ exists po, In o (OperationModel.getChildren db (Operation.id po))).
Proof.
  intros Hreach. pose proof (reachable_wf db Hreach) as Hwf.
  assert (Hlist : forall cond x,
             In x (Prisma.operation_findMany_asc cond db)
             <-> In x (Prisma.operation db) /\ cond x = true).
  { intros cond x. rewrite <- filter_In. split; apply Permutation_in;
      [| symmetry]; apply findMany_asc_perm. }
  unfold OperationRepository.findByDiscussion, OperationModel.getRootOperations,
    OperationModel.getChildren.
  split; [split |].
  - intros H. apply Hlist in H as [Hin Hd].
    destruct (Operation.parentId o) as [p |] eqn:Hp.
    + right. destruct (in_split _ _ Hin) as (l1 & l2 & Hsplit).
      pose proof (wf_parent_before db Hwf l1 o l2 Hsplit) as Hpb.
      unfold parent_before in Hpb. rewrite Hp in Hpb.
      destruct Hpb as (_ & po & Hpo & Hpoid & Hsame).
      exists po. split; apply Hlist; split; auto.
      * rewrite Hsplit. apply in_app_iff. auto.
      * now rewrite Hsame.
      * unfold OperationModel.is_child_of. rewrite Hp, Hpoid. apply String.eqb_refl.
    + left. apply Hlist. split; auto.
      unfold OperationModel.is_root_of. now rewrite Hd, Hp.
  - intros [H | (po & Hpo & H)].
    + apply Hlist in H as [Hin Hroot]. apply Hlist. split; auto.
      unfold OperationModel.is_root_of in Hroot.
      now apply andb_true_iff in Hroot as [Hd _].
    + apply Hlist in Hpo as [Hpoin Hpod]. apply Hlist in H as [Hin Hchild].
      apply Hlist. split; auto.
      unfold OperationModel.is_child_of in Hchild.
      destruct (Operation.parentId o) as [p |] eqn:Hp; [| discriminate].
      apply String.eqb_eq in Hchild. subst p.
      destruct (in_split _ _ Hin) as (l1 & l2 & Hsplit).
      pose proof (wf_parent_before db Hwf l1 o l2 Hsplit) as Hpb.
      unfold parent_before in Hpb. rewrite Hp in Hpb.
      destruct Hpb as (_ & q & Hq & Hqid & Hsame).
      assert (q = po) as ->.
      { apply (same_key_eq Operation.id (Prisma.operation db)); auto.
        - apply (wf_operation_ids db Hwf).
        - rewrite Hsplit. apply in_app_iff. auto. }
      now rewrite <- Hsame.
  - intros [Hroot (po & Hchild)].
    apply Hlist in Hroot as [_ Hroot]. apply Hlist in Hchild as [_ Hchild].
    unfold OperationModel.is_root_of in Hroot.
    unfold OperationModel.is_child_of in Hchild.
    destruct (Operation.parentId o); [| discriminate].
    now rewrite andb_false_r in Hroot.
Qed.

Lemma operations_form_a_forest_witness :
  (In o2 (OperationRepository.findByDiscussion (run scenario) "d1") <->
   In o2 (OperationModel.getRootOperations (run scenario) "d1")
   \/ exists po, In po (OperationRepository.findByDiscussion (run scenario) "d1")
                 /\ In o2 (OperationModel.getChildren (run scenario) (Operation.id po)))
  /\ ~ (In o2 (OperationModel.getRootOperations (run scenario) "d1")
        /\ exists po, In o2 (OperationModel.getChildren (run scenario) (Operation.id po))).
Proof.
  exact (operations_form_a_forest (run scenario) "d1" o2 (run_reachable scenario)).
Defined.

(** ** After a successful PATCH *)

Lemma find_map {A : Type} (p : A -> bool) (f : A -> A) (l : list A) :
  find p (map f l) = option_map f (find (fun x => p (f x)) l).
Proof.
  induction l as [| y l IH]; simpl; auto.
  now destruct (p (f y)).
Qed.

Lemma find_same {A : Type} (p q : A -> bool) (l : list A) :
  (forall x, p x = q x) -> find p l = find q l.
Proof.
  intros H. induction l as [| y l IH]; simpl; auto.
  now rewrite H, IH.
Qed.

Lemma find_only {A : Type} (p : A -> bool) (l : list A) (d : A) :
  In d l -> p d = true -> (forall x, In x l -> p x = true -> x = d) ->
  find p l = Some d.
Proof.
  intros Hin Hp Honly. destruct (find p l) as [x |] eqn:E.
  - apply find_some in E as [Hx Hpx]. f_equal. now apply Honly.
  - rewrite (find_none _ _ E d Hin) in Hp. discriminate.
Qed.

Lemma find_nothing {A : Type} (p : A -> bool) (l : list A) :
  (forall x, In x l -> p x = false) -> find p l = None.
Proof.
  intros H. destruct (find p l) as [x |] eqn:E; auto.
  apply find_some in E as [Hx Hpx]. rewrite (H x Hx) in Hpx. discriminate.
Qed.

(** When the author moves a discussion to a starting number that no
    discussion holds, the PATCH answers 200, the discussion is found under
    its id and under the new number, the old number is free again, and
    the operations are untouched. *)
Theorem update_moves_the_starting_number req db id d :
  Reachable db ->
  Js.get (params req) "id" = Js.Str id ->
  id <> "" ->
  Js.nullish (Js.get (body req) "startingNumber") = false ->
  Prisma.discussion_by_id db id = Some d ->
  Discussion.authorId d = userId req ->
  DiscussionModel.isStartingNumberTaken db
    (Js.parseFloat (Js.get (body req) "startingNumber")) = false ->
  let n := Js.parseFloat (Js.get (body req) "startingNumber") in
  let d' := Prisma.set_startingNumber n d in
  let db' := snd (DiscussionController.update req db) in
  fst (DiscussionController.update req db) = respond 200 (JDiscussion d')
  /\ Prisma.discussion_by_id db' id = Some d'
  /\ DiscussionModel.findByStartingNumber db' n = Some d'
  /\ DiscussionModel.isStartingNumberTaken db' (Discussion.startingNumber d) = false
  /\ Prisma.operation db' = Prisma.operation db.
Proof.
  intros Hreach Hid Hne Hpresent Hd Hauth Hfree n d' db'.
  pose proof (reachable_wf db Hreach) as Hwf.
  destruct (discussion_by_id_some _ _ _ Hd) as [Hin Hdid].
  unfold DiscussionModel.isStartingNumberTaken in Hfree. fold n in Hfree.
  destruct (Prisma.discussion_findUnique_startingNumber db n) eqn:Hnone;
    [discriminate |].
  assert (Hnobody : forall x, In x (Prisma.discussion db) ->
                      Prisma.same_number (Discussion.startingNumber x) n = false).
  { intros x Hx. now apply (find_startingNumber_none db n x). }
  assert (Hneq : PrimFloat.eqb n (Discussion.startingNumber d) = false).
  { destruct (PrimFloat.eqb n (Discussion.startingNumber d)) eqn:E; auto.
    pose proof (Hnobody d Hin) as Hdn. rewrite same_number_sym in Hdn.
    unfold Prisma.same_number in Hdn. now rewrite E in Hdn. }
  set (f := fun x => if String.eqb (Discussion.id x) (Discussion.id d)
                     then Prisma.set_startingNumber n x else x).
  assert (Hfid : forall x, Discussion.id (f x) = Discussion.id x).
  { intros x. unfold f. now destruct (String.eqb _ _). }
  assert (Hfd : f d = d').
  { unfold f. now rewrite String.eqb_refl. }
  assert (Hfx : forall x, In x (Prisma.discussion db) -> x <> d -> f x = x).
  { intros x Hx Hxd. unfold f.
    destruct (String.eqb (Discussion.id x) (Discussion.id d)) eqn:E; auto.
    apply String.eqb_eq in E. destruct Hxd.
    apply (same_key_eq Discussion.id (Prisma.discussion db)); auto.
    apply (wf_discussion_ids db Hwf). }
  assert (Hupdate : DiscussionController.update req db
                    = (respond 200 (JDiscussion d'),
                       {| Prisma.discussion := map f (Prisma.discussion db);
                          Prisma.operation := Prisma.operation db |})).
  { assert (Ht : Js.truthy (Js.Str id) = true).
    { simpl. apply negb_true_iff. now apply String.eqb_neq. }
    unfold DiscussionController.update, catch. rewrite Hid, Ht, Hpresent. simpl.
    unfold DiscussionRepository.findById. simpl. rewrite Hd. simpl.
    rewrite Hauth, String.eqb_refl. simpl. fold n. rewrite Hneq. simpl.
    unfold DiscussionModel.findByStartingNumber. rewrite Hnone.
    unfold DiscussionRepository.update, Prisma.discussion_update. simpl.
    rewrite Hd. simpl.
    destruct (existsb _ _) eqn:Hex; [| reflexivity].
    apply existsb_exists in Hex as (x & Hx & Hcond).
    apply andb_true_iff in Hcond as [_ Hxs].
    now rewrite (Hnobody x Hx) in Hxs. }
  unfold db'. rewrite Hupdate. simpl.
  split; [reflexivity |]. split; [| split; [| split; [| reflexivity]]].
  - unfold Prisma.discussion_by_id. simpl. rewrite find_map.
    rewrite (find_same _ (fun x => String.eqb (Discussion.id x) id)).
    + fold (Prisma.discussion_by_id db id). rewrite Hd. simpl. now rewrite Hfd.
    + intros x. now rewrite Hfid.
  - unfold DiscussionModel.findByStartingNumber,
      Prisma.discussion_findUnique_startingNumber. simpl.
    rewrite find_map.
    rewrite (find_only _ _ d Hin); [simpl; now rewrite Hfd | |].
    + rewrite Hfd. apply same_number_refl.
    + intros x Hx Hsx.
      destruct (String.eqb (Discussion.id x) (Discussion.id d)) eqn:E.
      * apply String.eqb_eq in E.
        apply (same_key_eq Discussion.id (Prisma.discussion db)); auto.
        apply (wf_discussion_ids db Hwf).
      * unfold f in Hsx. rewrite E in Hsx. now rewrite (Hnobody x Hx) in Hsx.
  - unfold DiscussionModel.isStartingNumberTaken,
      Prisma.discussion_findUnique_startingNumber. simpl.
    rewrite find_nothing; [reflexivity |].
    intros y Hy. apply in_map_iff in Hy as (x & <- & Hx).
    destruct (String.eqb (Discussion.id x) (Discussion.id d)) eqn:E.
    + unfold f. rewrite E. simpl. rewrite same_number_sym. now apply Hnobody.
    + unfold f. rewrite E.
      destruct (Prisma.same_number (Discussion.startingNumber x)
                                   (Discussion.startingNumber d)) eqn:Hs; auto.
      rewrite (wf_unique_numbers db Hwf x d Hx Hin Hs), String.eqb_refl in E.
      discriminate.
Qed.

Lemma update_moves_the_starting_number_witness :
  let db' := snd (DiscussionController.update (patch "alice" "d1" (Js.Num 5))
                                              (run two_discussions)) in
  fst (DiscussionController.update (patch "alice" "d1" (Js.Num 5)) (run two_discussions))
  = respond 200 (JDiscussion (Prisma.set_startingNumber 5 d1))
  /\ Prisma.discussion_by_id db' "d1" = Some (Prisma.set_startingNumber 5 d1)
  /\ DiscussionModel.findByStartingNumber db' 5 = Some (Prisma.set_startingNumber 5 d1)
  /\ DiscussionModel.isStartingNumberTaken db' 42 = false
  /\ Prisma.operation db' = Prisma.operation (run two_discussions).
Proof.
  refine (update_moves_the_starting_number (patch "alice" "d1" (Js.Num 5))
            (run two_discussions) "d1" d1 (run_reachable two_discussions)
            eq_refl _ eq_refl eq_refl eq_refl eq_refl).
  discriminate.
Defined.

(** A PATCH that names a discussion and carries a starting number answers
    404 exactly when the discussion does not exist and 403 exactly when it
    exists and [DiscussionModel.isAuthor] is false for the requestor. *)
Theorem update_is_guarded_by_isAuthor req db id :
  Js.get (params req) "id" = Js.Str id ->
  id <> "" ->
  Js.nullish (Js.get (body req) "startingNumber") = false ->
  (status (fst (DiscussionController.update req db)) = 404%Z
   <-> Prisma.discussion_by_id db id = None)
  /\ (status (fst (DiscussionController.update req db)) = 403%Z
      <-> (Prisma.discussion_by_id db id <> None
           /\ DiscussionModel.isAuthor db id (userId req) = false))
  /\ (DiscussionModel.isAuthor db id (userId req) = true
      <-> (status (fst (DiscussionController.update req db)) <> 403%Z
           /\ status (fst (DiscussionController.update req db)) <> 404%Z)).
Proof.
  intros Hid Hne Hpresent.
  assert (Ht : Js.truthy (Js.Str id) = true).
  { simpl. apply negb_true_iff. now apply String.eqb_neq. }
  unfold DiscussionController.update, catch, DiscussionModel.isAuthor.
  rewrite Hid, Ht, Hpresent. simpl.
  unfold DiscussionRepository.findById. simpl.
  destruct (Prisma.discussion_by_id db id) as [d |] eqn:Hd; simpl.
  - destruct (String.eqb (Discussion.authorId d) (userId req)) eqn:Hauth; simpl.
    + assert (Hstatus : forall c : Completion (Response * Prisma.Db),
                 (exists r db', c = Normal (r, db')
                                /\ (status r = 409%Z \/ status r = 200%Z))
                 \/ (exists m, c = Throw m) ->
                 status (fst match c with
                             | Normal r => r
                             | Throw m => (respond 500 (JError m), db)
                             end) <> 403%Z
                 /\ status (fst match c with
                                | Normal r => r
                                | Throw m => (respond 500 (JError m), db)
                                end) <> 404%Z).
      { intros c [(r & db' & -> & [H | H]) | (m & ->)]; simpl;
          try rewrite H; split; discriminate. }
      match goal with
      | |- context [match ?c with Normal _ => _ | Throw _ => _ end] =>
          destruct (Hstatus c) as [H403 H404]
      end.
      { match goal with
        | |- context [match ?t with Some _ => _ | None => _ end] => destruct t
        end.
        - left. do 2 eexists. split; [reflexivity | left; reflexivity].
        - unfold DiscussionRepository.update.
          destruct (Prisma.discussion_update _ _ _) as [[u db'] |]; simpl.
          + left. do 2 eexists. split; [reflexivity | right; reflexivity].
          + right. eauto. }
      split; [| split].
      * split; [intros H; now destruct H404 | discriminate].
      * split; [intros H; now destruct H403 | intros [_ H]; discriminate H].
      * split; auto.
    + split; [| split].
      * split; discriminate.
      * split; [intros _; split; [discriminate | reflexivity] | reflexivity].
      * split; [discriminate | intros [H _]; now destruct H].
  - split; [| split].
    + split; reflexivity.
    + split; [discriminate | intros [H _]; now destruct H].
    + split; [discriminate | intros [_ H]; now destruct H].
Qed.

Lemma update_is_guarded_by_isAuthor_witness :
  status (fst (DiscussionController.update (patch "bob" "d1" (Js.Num 5))
                                           (run two_discussions))) = 403%Z
  /\ status (fst (DiscussionController.update (patch "bob" "d9" (Js.Num 5))
                                              (run two_discussions))) = 404%Z.
Proof.
  split.
  - refine (proj2 (proj1 (proj2 (update_is_guarded_by_isAuthor
              (patch "bob" "d1" (Js.Num 5)) (run two_discussions) "d1"
              eq_refl _ eq_refl))) _).
    + discriminate.
    + split; [discriminate | vm_compute; reflexivity].
  - refine (proj2 (proj1 (update_is_guarded_by_isAuthor
              (patch "bob" "d9" (Js.Num 5)) (run two_discussions) "d9"
              eq_refl _ eq_refl)) _).
    + discriminate.
    + vm_compute. reflexivity.
Defined.

(** ** Authentication in front of the writing routes *)

Lemma bearer_not_empty h : String.prefix "Bearer " h = true -> String.eqb h "" = false.
Proof. destruct h; [discriminate | reflexivity]. Qed.

(** On POST /api/discussions, PATCH /api/discussions/:id and POST
    /api/operations: a request without a Bearer header is answered with
    401 "No token provided"; one whose token [jwt.verify] rejects with 401
    "Invalid or expired token"; one whose token carries an empty role or
    the role Guest with 403; in each case the store is left as it was.
    Otherwise the handler runs with the token's id as [userId]. *)
Theorem writing_routes_check_the_token verify secret env route req db :
  Router.writes route = true ->
  ((Auth.authorization req = None
    \/ exists h, Auth.authorization req = Some h /\ String.prefix "Bearer " h = false) ->
   Router.handle verify secret env route req db
   = (respond 401 (JError "No token provided"), db))
  /\ (forall h,
        Auth.authorization req = Some h ->
        String.prefix "Bearer " h = true ->
        match verify (String.substring 7 (String.length h - 7) h) secret with
        | Throw _ =>
            Router.handle verify secret env route req db
            = (respond 401 (JError "Invalid or expired token"), db)
        | Normal decoded =>
            if String.eqb (Auth.role decoded) ""
               || String.eqb (Auth.role decoded) "Guest"
            then
              Router.handle verify secret env route req db
              = (respond 403
                   (JError "Access denied. Only registered users can perform this action."),
                 db)
            else
              Router.handle verify secret env route req db
              = Router.controller env route
                  {| params := Auth.req_params req;
                     body := Auth.req_body req;
                     userId := Auth.id decoded |} db
        end).
Proof.
  intros Hwrites.
  assert (Hhandle : Router.handle verify secret env route req db
                    = Router.through (Router.registered verify secret)
                        (Router.controller env route) req db).
  { destruct route; try discriminate Hwrites; reflexivity. }
  rewrite Hhandle. unfold Router.registered. simpl.
  unfold Auth.authenticate. split.
  - intros [Hnone | (h & Hsome & Hprefix)].
    + now rewrite Hnone.
    + rewrite Hsome, Hprefix. now rewrite orb_true_r.
  - intros h Hsome Hprefix. rewrite Hsome, Hprefix, (bearer_not_empty h Hprefix).
    simpl.
    destruct (verify _ secret) as [decoded | m]; [| reflexivity].
    unfold Auth.requireRegisteredUser. simpl.
    destruct (String.eqb (Auth.role decoded) "" || String.eqb (Auth.role decoded) "Guest");
      reflexivity.
Qed.

Lemma writing_routes_check_the_token_witness :
  Router.handle verify_example "s3cret" env1 Router.POST_discussions
    (http None Js.Undefined [("startingNumber", Js.Num 42)]) Prisma.empty
  = (respond 401 (JError "No token provided"), Prisma.empty)
  /\ Router.handle verify_example "s3cret" env1 Router.POST_discussions
       (http (Some "Bearer guest") Js.Undefined [("startingNumber", Js.Num 42)])
       Prisma.empty
     = (respond 403
          (JError "Access denied. Only registered users can perform this action."),
        Prisma.empty)
  /\ Router.handle verify_example "s3cret" env1 Router.POST_discussions
       (http (Some "Bearer alice") Js.Undefined [("startingNumber", Js.Num 42)])
       Prisma.empty
     = (respond 201 (JDiscussion d1), run one_discussion).
Proof.
  split; [| split].
  - refine (proj1 (writing_routes_check_the_token verify_example "s3cret" env1
                     Router.POST_discussions
                     (http None Js.Undefined [("startingNumber", Js.Num 42)])
                     Prisma.empty eq_refl) _).
    left. reflexivity.
  - exact (proj2 (writing_routes_check_the_token verify_example "s3cret" env1
                    Router.POST_discussions
                    (http (Some "Bearer guest") Js.Undefined
                          [("startingNumber", Js.Num 42)])
                    Prisma.empty eq_refl) "Bearer guest" eq_refl eq_refl).
  - exact (proj2 (writing_routes_check_the_token verify_example "s3cret" env1
                    Router.POST_discussions
                    (http (Some "Bearer alice") Js.Undefined
                          [("startingNumber", Js.Num 42)])
                    Prisma.empty eq_refl) "Bearer alice" eq_refl eq_refl).
Defined.

Lemma reading_handlers_keep_the_store req db :
  snd (DiscussionController.getAll req db) = db
  /\ snd (DiscussionController.getById req db) = db
  /\ snd (OperationController.getByDiscussion req db) = db
  /\ snd (OperationController.getById req db) = db.
Proof.
  split; [reflexivity |]. split; [| split].
  - unfold DiscussionController.getById, catch.
    destruct (negb _); [reflexivity |].
    destruct (DiscussionRepository.findById db _) as [[? |] |]; reflexivity.
  - unfold OperationController.getByDiscussion, catch.
    destruct (negb _); [reflexivity |].
    destruct (Js.get _ _); reflexivity.
  - unfold OperationController.getById, catch.
    destruct (negb _); [reflexivity |].
    destruct (OperationRepository.findById db _) as [[? |] |]; reflexivity.
Qed.

(** Whatever the route and the request, the store is changed only by a
    writing route, and only for a request whose Bearer token [jwt.verify]
    accepts and whose role is neither empty nor Guest. *)
Theorem store_changes_only_for_registered_users verify secret env route req db :
  snd (Router.handle verify secret env route req db) <> db ->
  Router.writes route = true
  /\ exists h decoded,
       Auth.authorization req = Some h
       /\ String.prefix "Bearer " h = true
       /\ verify (String.substring 7 (String.length h - 7) h) secret = Normal decoded
       /\ Auth.role decoded <> ""
       /\ Auth.role decoded <> "Guest".
Proof.
  intros Hchanged.
  destruct (Router.writes route) eqn:Hwrites.
  - split; [reflexivity |].
    assert (Hhandle : Router.handle verify secret env route req db
                      = Router.through (Router.registered verify secret)
                          (Router.controller env route) req db).
    { destruct route; try discriminate Hwrites; reflexivity. }
    rewrite Hhandle in Hchanged. unfold Router.registered in Hchanged.
    simpl in Hchanged. unfold Auth.authenticate in Hchanged.
    destruct (Auth.authorization req) as [h |]; [| now destruct Hchanged].
    destruct (String.eqb h "") eqn:Hempty; [now destruct Hchanged |].
    destruct (String.prefix "Bearer " h) eqn:Hprefix; [| now destruct Hchanged].
    simpl in Hchanged.
    destruct (verify _ secret) as [decoded | m] eqn:Hverify; [| now destruct Hchanged].
    unfold Auth.requireRegisteredUser in Hchanged. simpl in Hchanged.
    destruct (String.eqb (Auth.role decoded) "") eqn:Hrole;
      [now destruct Hchanged |].
    destruct (String.eqb (Auth.role decoded) "Guest") eqn:Hguest;
      [now destruct Hchanged |].
    exists h, decoded. repeat split; auto; now apply String.eqb_neq.
  - exfalso. apply Hchanged.
    destruct (reading_handlers_keep_the_store (Router.to_controller req) db)
      as (H1 & H2 & H3 & H4).
    destruct route; try discriminate Hwrites; assumption.
Qed.

Lemma store_changes_only_for_registered_users_witness :
  Router.writes Router.POST_discussions = true
  /\ exists h decoded,
       Auth.authorization
         (http (Some "Bearer alice") Js.Undefined [("startingNumber", Js.Num 42)])
       = Some h
       /\ String.prefix "Bearer " h = true
       /\ verify_example (String.substring 7 (String.length h - 7) h) "s3cret"
          = Normal decoded
       /\ Auth.role decoded <> ""
       /\ Auth.role decoded <> "Guest".
Proof.
  refine (store_changes_only_for_registered_users verify_example "s3cret" env1
            Router.POST_discussions
            (http (Some "Bearer alice") Js.Undefined [("startingNumber", Js.Num 42)])
            Prisma.empty _).
  intros H.
  apply (f_equal (fun d => length (Prisma.discussion d))) in H.
  vm_compute in H. discriminate H.
Defined.

(** ** Listings by author *)

(** [DiscussionModel.findByAuthor] and [OperationModel.findByAuthor]
    return exactly the author's rows, in non-increasing order of creation
    time; each discussion comes with the number [countByDiscussion] gives
    for it, and, in a store reached through the routes, each operation
    comes with the discussion it belongs to. *)
Theorem findByAuthor_lists_the_authors_rows db authorId :
  (Permutation (map fst (DiscussionModel.findByAuthor db authorId))
               (filter (fun d => String.eqb (Discussion.authorId d) authorId)
                       (Prisma.discussion db))
   /\ StronglySorted newest_first (map fst (DiscussionModel.findByAuthor db authorId))
   /\ forall d n, In (d, n) (DiscussionModel.findByAuthor db authorId) ->
        n = OperationModel.countByDiscussion db (Discussion.id d))
  /\ (Permutation (map fst (OperationModel.findByAuthor db authorId))
                  (filter (fun o => String.eqb (Operation.authorId o) authorId)
                          (Prisma.operation db))
      /\ StronglySorted newest_operation_first
                        (map fst (OperationModel.findByAuthor db authorId))
      /\ (Reachable db ->
          forall o od, In (o, od) (OperationModel.findByAuthor db authorId) ->
            exists d, od = Some d /\ In d (Prisma.discussion db)
                      /\ Discussion.id d = Operation.discussionId o)).
Proof.
  split; split; [| split | | split].
  - unfold DiscussionModel.findByAuthor. rewrite map_map. simpl. rewrite map_id.
    apply orderBy_perm.
  - unfold DiscussionModel.findByAuthor. rewrite map_map. simpl. rewrite map_id.
    apply (orderBy_sorted Prisma.discussion_desc newest_first);
      unfold Prisma.discussion_desc, newest_first.
    + intros x y H. now apply Z.leb_le.
    + intros x y H. apply Z.leb_gt in H. lia.
    + intros x y z. lia.
  - intros d n Hin. unfold DiscussionModel.findByAuthor in Hin.
    apply in_map_iff in Hin as (x & Hx & _). now injection Hx as <- <-.
  - unfold OperationModel.findByAuthor. rewrite map_map. simpl. rewrite map_id.
    apply orderBy_perm.
  - unfold OperationModel.findByAuthor. rewrite map_map. simpl. rewrite map_id.
    apply (orderBy_sorted Prisma.operation_desc newest_operation_first);
      unfold Prisma.operation_desc, newest_operation_first.
    + intros x y H. now apply Z.leb_le.
    + intros x y H. apply Z.leb_gt in H. lia.
    + intros x y z. lia.
  - intros Hreach o od Hin. pose proof (reachable_wf db Hreach) as Hwf.
    unfold OperationModel.findByAuthor in Hin.
    apply in_map_iff in Hin as (x & Hx & Hxin). injection Hx as -> <-.
    apply (Permutation_in _ (orderBy_perm _ _)) in Hxin.
    apply filter_In in Hxin as [Hxin _].
    destruct (wf_discussion_exists db Hwf o Hxin) as (d & Hd & Hid).
    exists d. split; auto. rewrite <- Hid.
    apply discussion_by_id_of; auto. apply (wf_discussion_ids db Hwf).
Qed.

Lemma findByAuthor_lists_the_authors_rows_witness :
  exists d, Some d1 = Some d /\ In d (Prisma.discussion (run scenario))
            /\ Discussion.id d = Operation.discussionId o2.
Proof.
  destruct (findByAuthor_lists_the_authors_rows (run scenario) "carol")
    as (_ & _ & _ & Hdiscussion).
  refine (Hdiscussion (run_reachable scenario) o2 (Some d1) _).
  vm_compute. auto.
Defined.

(** ** The shape of a resolved chain *)

Lemma subsequence_refl {A : Type} (l : list A) : subsequence l l.
Proof.
  induction l; [apply subsequence_nil | now apply subsequence_take].
Qed.

Lemma subsequence_behind {A : Type} (a l m : list A) :
  subsequence l m -> subsequence l (a ++ m).
Proof.
  intros H. induction a; simpl; [auto | now apply subsequence_skip].
Qed.

Lemma subsequence_app {A : Type} (l1 m1 l2 m2 : list A) :
  subsequence l1 m1 -> subsequence l2 m2 -> subsequence (l1 ++ l2) (m1 ++ m2).
Proof.
  intros H1 H2. induction H1; simpl; auto.
  - now apply subsequence_skip.
  - now apply subsequence_take.
Qed.

Lemma subsequence_length {A : Type} (l m : list A) :
  subsequence l m -> length l <= length m.
Proof. induction 1; simpl; lia. Qed.

Lemma subsequence_in {A : Type} (l m : list A) (x : A) :
  subsequence l m -> In x l -> In x m.
Proof.
  intros Hs. induction Hs as [| y l1 l2 Hs IH | y l1 l2 Hs IH]; simpl; auto.
  intros [-> | Hx]; auto.
Qed.

Lemma path_in_insertion_order db :
  WellFormed db ->
  forall l o, path db l o ->
    forall l1 l2, Prisma.operation db = (l1 ++ o :: l2)%list ->
      subsequence l
        (filter (fun x => String.eqb (Operation.discussionId x) (Operation.discussionId o))
                (l1 ++ [o])).
Proof.
  intros Hwf. induction 1 as [o Hin Hnone | l p o Hpath IH Hin Hpar];
    intros l1 l2 Hsplit.
  - rewrite filter_app. simpl. rewrite String.eqb_refl.
    apply subsequence_behind. apply subsequence_refl.
  - pose proof (wf_parent_before db Hwf l1 o l2 Hsplit) as Hpb.
    unfold parent_before in Hpb. rewrite Hpar in Hpb.
    destruct Hpb as (_ & po & Hpo & Hpoid & Hsame).
    assert (po = p) as ->.
    { apply (same_key_eq Operation.id (Prisma.operation db)); auto.
      - apply (wf_operation_ids db Hwf).
      - rewrite Hsplit. apply in_app_iff. auto.
      - now apply path_in in Hpath. }
    destruct (in_split _ _ Hpo) as (a & b & Hl1).
    assert (Hsplit' : Prisma.operation db = (a ++ p :: (b ++ o :: l2))%list).
    { rewrite Hsplit, Hl1, <- app_assoc. reflexivity. }
    specialize (IH a _ Hsplit'). rewrite Hsame in IH.
    replace (l1 ++ [o])%list with ((a ++ [p]) ++ (b ++ [o]))%list.
    + rewrite filter_app. apply subsequence_app; auto.
      rewrite filter_app. simpl. rewrite String.eqb_refl.
      apply subsequence_behind. apply subsequence_refl.
    + rewrite Hl1, <- !app_assoc. reflexivity.
Qed.

(** For every stored operation the resolver returns a chain that ends
    with it, lists operations of its discussion only, in the order in
    which they were inserted and without repetition, so the chain is never
    longer than [countByDiscussion] of that discussion. *)
Theorem chain_stays_in_one_discussion db o :
  Reachable db ->
  In o (Prisma.operation db) ->
  exists chain,
    (forall fuel, length (Prisma.operation db) < fuel ->
       OperationModel.getOperationChain fuel db (Operation.id o) = Some chain)
    /\ path db chain o
    /\ subsequence chain
         (filter (fun x => String.eqb (Operation.discussionId x) (Operation.discussionId o))
                 (Prisma.operation db))
    /\ NoDup (map Operation.id chain)
    /\ length chain
       <= OperationModel.countByDiscussion db (Operation.discussionId o).
Proof.
  intros Hreach Hin. pose proof (reachable_wf db Hreach) as Hwf.
  destruct (path_exists db Hwf o Hin) as (chain & Hpath).
  exists chain.
  assert (Hsub : subsequence chain
            (filter (fun x => String.eqb (Operation.discussionId x)
                                         (Operation.discussionId o))
                    (Prisma.operation db))).
  { destruct (in_split _ _ Hin) as (l1 & l2 & Hsplit).
    pose proof (path_in_insertion_order db Hwf chain o Hpath l1 l2 Hsplit) as H.
    rewrite Hsplit.
    replace (l1 ++ o :: l2)%list with ((l1 ++ [o]) ++ l2)%list
      by (rewrite <- app_assoc; reflexivity).
    rewrite filter_app.
    rewrite <- (app_nil_r chain). apply subsequence_app; auto.
    clear. induction (filter _ l2);
      [apply subsequence_nil | now apply subsequence_skip]. }
  split; [now apply getOperationChain_path |].
  split; [exact Hpath |]. split; [exact Hsub |]. split.
  - assert (Hall : subsequence chain (Prisma.operation db)).
    { clear - Hsub. revert Hsub. generalize (Prisma.operation db) as ops.
      intros ops. revert chain. induction ops as [| x ops IH]; simpl; intros chain H.
      - exact H.
      - destruct (String.eqb _ _).
        + inversion H; subst;
            [apply subsequence_skip | apply subsequence_take]; auto.
        + apply subsequence_skip. auto. }
    pose proof (wf_operation_ids db Hwf) as Hnd.
    clear - Hall Hnd. induction Hall; simpl in *.
    + constructor.
    + inversion Hnd; subst. auto.
    + inversion Hnd as [| ? ? Hnotin Hnd']; subst. constructor; auto.
      intros Hx. apply Hnotin.
      apply in_map_iff in Hx as (y & Hy & Hyin).
      rewrite <- Hy. apply in_map. now apply (subsequence_in l1 l2).
  - unfold OperationModel.countByDiscussion. now apply subsequence_length.
Qed.

Lemma chain_stays_in_one_discussion_witness :
  exists chain,
    (forall fuel, length (Prisma.operation (run scenario)) < fuel ->
       OperationModel.getOperationChain fuel (run scenario) (Operation.id o2)
       = Some chain)
    /\ path (run scenario) chain o2
    /\ subsequence chain
         (filter (fun x => String.eqb (Operation.discussionId x)
                                      (Operation.discussionId o2))
                 (Prisma.operation (run scenario)))
    /\ NoDup (map Operation.id chain)
    /\ length chain
       <= OperationModel.countByDiscussion (run scenario) (Operation.discussionId o2).
Proof.
  refine (chain_stays_in_one_discussion (run scenario) o2 (run_reachable scenario) _).
  vm_compute. auto.
Defined.

(** ** Listing an unknown discussion *)

(** GET /api/operations/discussion/:discussionId does not look the
    discussion up: for an id that names no discussion it answers 200 with
    the empty list. *)
Theorem listing_of_unknown_discussion_is_empty req db did :
  Reachable db ->
  Js.get (params req) "discussionId" = Js.Str did ->
  did <> "" ->
  Prisma.discussion_by_id db did = None ->
  OperationController.getByDiscussion req db = (respond 200 (JOperations []), db).
Proof.
  intros Hreach Hparam Hne Hnone.
  assert (Ht : Js.truthy (Js.Str did) = true).
  { simpl. apply negb_true_iff. now apply String.eqb_neq. }
  unfold OperationController.getByDiscussion, catch. rewrite Hparam, Ht. simpl.
  unfold OperationRepository.findByDiscussion, Prisma.operation_findMany_asc.
  now rewrite (no_operations_of_unknown_discussion db did (reachable_wf db Hreach) Hnone).
Qed.

Lemma listing_of_unknown_discussion_is_empty_witness :
  OperationController.getByDiscussion
    {| params := [("discussionId", Js.Str "d9")]; body := []; userId := "" |}
    (run scenario)
  = (respond 200 (JOperations []), run scenario).
Proof.
  refine (listing_of_unknown_discussion_is_empty
            {| params := [("discussionId", Js.Str "d9")]; body := []; userId := "" |}
            (run scenario) "d9" (run_reachable scenario) eq_refl _ _).
  - discriminate.
  - vm_compute. reflexivity.
Defined.

(** ** What every stored operation satisfies *)

Lemma reachable_computed db :
  Reachable db ->
  forall o, In o (Prisma.operation db) ->
    exists v, computeResult v (Operation.operationType o) (Operation.operand o)
              = Normal (Operation.result o).
Proof.
  induction 1 as [| db a Hreach IH _]; [intros o [] |].
  intros o Hin. destruct a as [env req | req | env req]; simpl in Hin.
  - destruct (create_discussion_cases env req db) as [Hdb | (d & _ & _ & _ & Hdb)];
      rewrite Hdb in Hin; auto.
  - destruct (update_discussion_cases req db) as [Hdb | (d & n & _ & _ & _ & Hdb)];
      rewrite Hdb in Hin; auto.
  - destruct (create_operation_cases env req db) as [Hdb | (x & Hc & Hdb)];
      rewrite Hdb in Hin; auto.
    simpl in Hin. apply in_app_iff in Hin as [Hin | [<- | []]]; auto.
    destruct Hc as (_ & _ & d & _ & Hpar).
    destruct (Operation.parentId x).
    + destruct Hpar as (_ & po & _ & _ & Hcomp). eauto.
    + eauto.
Qed.

(** In a store reached through the routes, every operation belongs to an
    existing discussion, carries one of the four operation types and a
    result that [computeResult] has returned for its type and operand;
    hence no stored DIVIDE has a zero operand; and no two operations
    share an identity. *)
Theorem stored_operations_are_valid db :
  Reachable db ->
  NoDup (map Operation.id (Prisma.operation db))
  /\ forall o, In o (Prisma.operation db) ->
       (exists d, Prisma.discussion_by_id db (Operation.discussionId o) = Some d)
       /\ OperationModel.isValidOperationType (Operation.operationType o) = true
       /\ (exists v, computeResult v (Operation.operationType o) (Operation.operand o)
                     = Normal (Operation.result o))
       /\ (Operation.operationType o = "DIVIDE" ->
           PrimFloat.eqb (Operation.operand o) 0 = false).
Proof.
  intros Hreach. pose proof (reachable_wf db Hreach) as Hwf.
  split; [apply (wf_operation_ids db Hwf) |].
  intros o Hin.
  destruct (reachable_computed db Hreach o Hin) as (v & Hv).
  split; [| split; [| split]].
  - destruct (wf_discussion_exists db Hwf o Hin) as (d & Hd & Hid).
    now apply (discussion_by_id_exists db _ d).
  - unfold OperationModel.isValidOperationType. apply existsb_exists.
    exists (Operation.operationType o). split; [| apply String.eqb_refl].
    exact (wf_operation_types db Hwf o Hin).
  - eauto.
  - intros Hdiv. rewrite Hdiv in Hv. unfold computeResult in Hv. simpl in Hv.
    destruct (PrimFloat.eqb (Operation.operand o) 0); [discriminate | reflexivity].
Qed.

Lemma stored_operations_are_valid_witness :
  NoDup (map Operation.id (Prisma.operation (run scenario)))
  /\ forall o, In o (Prisma.operation (run scenario)) ->
       (exists d, Prisma.discussion_by_id (run scenario) (Operation.discussionId o)
                  = Some d)
       /\ OperationModel.isValidOperationType (Operation.operationType o) = true
       /\ (exists v, computeResult v (Operation.operationType o) (Operation.operand o)
                     = Normal (Operation.result o))
       /\ (Operation.operationType o = "DIVIDE" ->
           PrimFloat.eqb (Operation.operand o) 0 = false).
Proof.
  exact (stored_operations_are_valid (run scenario) (run_reachable scenario)).
Defined.

(** ** The answer to POST /api/discussions *)

(** For a request that carries a starting number, POST /api/discussions
    answers 409 exactly when [isStartingNumberTaken] holds for the parsed
    number, and 201 exactly when it does not and the identity drawn for
    the new row is unused. *)
Theorem create_discussion_status env req db :
  Js.nullish (Js.get (body req) "startingNumber") = false ->
  let n := Js.parseFloat (Js.get (body req) "startingNumber") in
  (status (fst (DiscussionController.create env req db)) = 409%Z
   <-> DiscussionModel.isStartingNumberTaken db n = true)
  /\ (status (fst (DiscussionController.create env req db)) = 201%Z
      <-> (DiscussionModel.isStartingNumberTaken db n = false
           /\ Prisma.discussion_by_id db (Prisma.newId env) = None)).
Proof.
  intros Hpresent n.
  unfold DiscussionController.create, catch, DiscussionModel.isStartingNumberTaken,
    DiscussionModel.findByStartingNumber.
  rewrite Hpresent. fold n.
  destruct (Prisma.discussion_findUnique_startingNumber db n) eqn:Hn; simpl.
  - split; split; auto; try discriminate. intros [H _]. discriminate H.
  - unfold DiscussionRepository.create, Prisma.discussion_create.
    destruct (Prisma.discussion_by_id db (Prisma.newId env)) eqn:Hi; simpl.
    + split; split; try discriminate. intros [_ H]. discriminate H.
    + rewrite Hn. simpl. split; split; auto; discriminate.
Qed.

Lemma create_discussion_status_witness :
  status (fst (DiscussionController.create env2 create_root (run one_discussion)))
  = 409%Z
  /\ status (fst (DiscussionController.create env1 create_root Prisma.empty)) = 201%Z.
Proof.
  split.
  - refine (proj2 (proj1 (create_discussion_status env2 create_root
                            (run one_discussion) eq_refl)) _).
    vm_compute. reflexivity.
  - refine (proj2 (proj2 (create_discussion_status env1 create_root
                            Prisma.empty eq_refl)) _).
    split; vm_compute; reflexivity.
Defined.

Lemma stored_operations_are_permanent_witness :
  exists added,
    Prisma.operation (run (one_discussion ++ [CreateOperation env2 add_ten]))
    = (Prisma.operation (run one_discussion) ++ added)%list
    /\ length added <= 1
    /\ (added <> [] -> exists env req, CreateOperation env2 add_ten = CreateOperation env req).
Proof.
  destruct (stored_operations_are_permanent one_discussion) as [_ Hone].
  exact (Hone (CreateOperation env2 add_ten)).
Defined.
